(** * odoh-server: the DNS-over-HTTPS request pipeline of [odoh.go]

    A shallow embedding of [odoh.go] and the properties of its pipeline
    (decode, synthesize, resolve, encode).

    Go values are modelled as follows.
    - [string] is a Rocq [string] (a sequence of 8-bit characters), [[]byte]
      is a [list byte].
    - [error] is an [option string]: [None] is Go's [nil].
    - [uint16] values are [N]; [time.Duration] is a [Z] wrapped to 64 bits.
    - [map[string][]string] ([url.Values], [http.Header]) is a
      [gmap string (list string)].
    - Everything the handler does to the outside (the log, the request
      body, the network, the clock) is recorded in a trace of events; what
      the outside answers is read from an environment [Env]. *)

From Stdlib Require Import ZArith NArith Ascii String List Lia.
From Stdlib.Strings Require Import Byte.
From stdpp Require Import gmap strings list pretty.
Import ListNotations.

Local Open Scope string_scope.
Local Open Scope list_scope.

(** Go's [error]: [None] is [nil]. *)
Definition error : Type := option string.

Definition is_nil {A} (e : option A) : bool :=
  match e with None => true | Some _ => false end.

(** ** Package [time] *)

Module time.

(** [time.Duration] is an [int64] count of nanoseconds. *)
Definition Duration : Type := Z.

Definition int64 (z : Z) : Z := ((z + 2 ^ 63) mod 2 ^ 64 - 2 ^ 63)%Z.

Definition Nanosecond : Duration := 1%Z.
Definition Microsecond : Duration := 1000%Z.
Definition Millisecond : Duration := 1000000%Z.
Definition Second : Duration := 1000000000%Z.

(** The product of two durations, as Go computes [a * b] on [int64]. *)
Definition mul (a b : Duration) : Duration := int64 (a * b).

(** An instant, in nanoseconds since the epoch. *)
Definition Time : Type := Z.

Definition Add (t : Time) (d : Duration) : Time := (t + d)%Z.

(** The duration between two instants. *)
Definition Sub (t u : Time) : Duration := (t - u)%Z.

End time.

(** ** Package [encoding/base64]: [RawURLEncoding]

    The URL-safe alphabet of RFC 4648, section 5, without padding. Three
    bytes are 24 bits, most significant first, cut into four 6-bit indices
    into the alphabet. The decoder skips carriage returns and line feeds,
    as Go's does, and is not strict about the unused low bits of a final
    partial group. *)

Module base64.

Definition encodeURL : string :=
  "ABCDEFGHIJKLMNOPQRSTUVWXYZabcdefghijklmnopqrstuvwxyz0123456789-_".

(** A 6-bit group, most significant bit first. *)
Definition sextet : Type := (bool * bool * bool * bool * bool * bool)%type.

Definition sextet_index (s : sextet) : nat :=
  let '(b5, b4, b3, b2, b1, b0) := s in
  32 * Nat.b2n b5 + 16 * Nat.b2n b4 + 8 * Nat.b2n b3
  + 4 * Nat.b2n b2 + 2 * Nat.b2n b1 + Nat.b2n b0.

Definition sextet_of_index (i : nat) : sextet :=
  (Nat.testbit i 5, Nat.testbit i 4, Nat.testbit i 3,
   Nat.testbit i 2, Nat.testbit i 1, Nat.testbit i 0).

(** [enc.encode[i]] *)
Definition encodeChar (s : sextet) : ascii :=
  match String.get (sextet_index s) encodeURL with
  | Some c => c
  | None => "A"%char
  end.

(** The position of a character in the alphabet. *)
Fixpoint index_from (i : nat) (c : ascii) (alphabet : string) : option nat :=
  match alphabet with
  | EmptyString => None
  | String a rest => if Ascii.eqb a c then Some i else index_from (S i) c rest
  end.

(** [enc.decodeMap[c]]; [None] stands for the entry 0xFF. *)
Definition decodeMap (c : ascii) : option sextet :=
  option_map sextet_of_index (index_from 0 c encodeURL).

(** The bits of a byte, most significant first. *)
Definition byte_bits (b : byte)
  : bool * bool * bool * bool * bool * bool * bool * bool :=
  let '(b0, (b1, (b2, (b3, (b4, (b5, (b6, b7))))))) := Byte.to_bits b in
  (b7, b6, b5, b4, b3, b2, b1, b0).

Definition bits_byte (b7 b6 b5 b4 b3 b2 b1 b0 : bool) : byte :=
  Byte.of_bits (b0, (b1, (b2, (b3, (b4, (b5, (b6, b7))))))).

(** A full group: three bytes give four characters. *)
Definition encode3 (x y z : byte) : list ascii :=
  let '(x7, x6, x5, x4, x3, x2, x1, x0) := byte_bits x in
  let '(y7, y6, y5, y4, y3, y2, y1, y0) := byte_bits y in
  let '(z7, z6, z5, z4, z3, z2, z1, z0) := byte_bits z in
  [ encodeChar (x7, x6, x5, x4, x3, x2);
    encodeChar (x1, x0, y7, y6, y5, y4);
    encodeChar (y3, y2, y1, y0, z7, z6);
    encodeChar (z5, z4, z3, z2, z1, z0) ].

(** The remainder of two bytes gives three characters. *)
Definition encode2 (x y : byte) : list ascii :=
  let '(x7, x6, x5, x4, x3, x2, x1, x0) := byte_bits x in
  let '(y7, y6, y5, y4, y3, y2, y1, y0) := byte_bits y in
  [ encodeChar (x7, x6, x5, x4, x3, x2);
    encodeChar (x1, x0, y7, y6, y5, y4);
    encodeChar (y3, y2, y1, y0, false, false) ].

(** The remainder of one byte gives two characters. *)
Definition encode1 (x : byte) : list ascii :=
  let '(x7, x6, x5, x4, x3, x2, x1, x0) := byte_bits x in
  [ encodeChar (x7, x6, x5, x4, x3, x2);
    encodeChar (x1, x0, false, false, false, false) ].

Fixpoint encode (src : list byte) : list ascii :=
  match src with
  | [] => []
  | [x] => encode1 x
  | [x; y] => encode2 x y
  | x :: y :: z :: rest => encode3 x y z ++ encode rest
  end.

(** [RawURLEncoding.EncodeToString] *)
Definition EncodeToString (src : list byte) : string :=
  string_of_list_ascii (encode src).

Definition CorruptInputError : error := Some "illegal base64 data".

(** The first byte of a group, from its first two characters. *)
Definition out0 (s0 s1 : sextet) : byte :=
  let '(a5, a4, a3, a2, a1, a0) := s0 in
  let '(b5, b4, _, _, _, _) := s1 in
  bits_byte a5 a4 a3 a2 a1 a0 b5 b4.

Definition out1 (s1 s2 : sextet) : byte :=
  let '(_, _, b3, b2, b1, b0) := s1 in
  let '(c5, c4, c3, c2, _, _) := s2 in
  bits_byte b3 b2 b1 b0 c5 c4 c3 c2.

Definition out2 (s2 s3 : sextet) : byte :=
  let '(_, _, _, _, c1, c0) := s2 in
  let '(d5, d4, d3, d2, d1, d0) := s3 in
  bits_byte c1 c0 d5 d4 d3 d2 d1 d0.

(** Groups of four characters give three bytes each; a remainder of two
    or three characters gives one or two bytes; a remainder of a single
    character is corrupt, and so is any character outside the alphabet.
    The bytes of the groups before the corrupt one are returned with the
    error. *)
Fixpoint decode (src : list ascii) : list byte * error :=
  match src with
  | [] => ([], None)
  | [_] => ([], CorruptInputError)
  | [c0; c1] =>
      match decodeMap c0, decodeMap c1 with
      | Some s0, Some s1 => ([out0 s0 s1], None)
      | _, _ => ([], CorruptInputError)
      end
  | [c0; c1; c2] =>
      match decodeMap c0, decodeMap c1, decodeMap c2 with
      | Some s0, Some s1, Some s2 => ([out0 s0 s1; out1 s1 s2], None)
      | _, _, _ => ([], CorruptInputError)
      end
  | c0 :: c1 :: c2 :: c3 :: rest =>
      match decodeMap c0, decodeMap c1, decodeMap c2, decodeMap c3 with
      | Some s0, Some s1, Some s2, Some s3 =>
          let '(bs, err) := decode rest in
          (out0 s0 s1 :: out1 s1 s2 :: out2 s2 s3 :: bs, err)
      | _, _, _, _ => ([], CorruptInputError)
      end
  end.

Definition is_newline (c : ascii) : bool :=
  Ascii.eqb c "010"%char || Ascii.eqb c "013"%char.

(** [RawURLEncoding.DecodeString] *)
Definition DecodeString (s : string) : list byte * error :=
  decode (List.filter (fun c => negb (is_newline c)) (list_ascii_of_string s)).

End base64.

(** ** Package [github.com/miekg/dns]: the data the server handles *)

Module dns.

Definition TypeA : N := 1.
Definition TypeAAAA : N := 28.
Definition ClassINET : N := 1.
Definition OpcodeQuery : Z := 0.
Definition RcodeSuccess : Z := 0.

Record Question : Type := mkQuestion {
  Name : string;
  Qtype : N;
  Qclass : N
}.

(** A resource record: its header and its data, which the server never
    looks into. *)
Record RR : Type := mkRR {
  RR_Name : string;
  Rrtype : N;
  Class : N;
  Ttl : N;
  Rdata : list byte
}.

Record MsgHdr : Type := mkMsgHdr {
  Id : N;
  Response : bool;
  Opcode : Z;
  Authoritative : bool;
  Truncated : bool;
  RecursionDesired : bool;
  RecursionAvailable : bool;
  Zero : bool;
  AuthenticatedData : bool;
  CheckingDisabled : bool;
  Rcode : Z
}.

(** [Msg] embeds [MsgHdr]; the field [Questions] is Go's [Question]. *)
Record Msg : Type := mkMsg {
  Hdr : MsgHdr;
  Compress : bool;
  Questions : list Question;
  Answer : list RR;
  Ns : list RR;
  Extra : list RR
}.

(** The zero values [dns.Question{}], [dns.MsgHdr{}] and [dns.Msg{}]. *)
Definition Question_zero : Question := mkQuestion "" 0 0.
Definition MsgHdr_zero : MsgHdr :=
  mkMsgHdr 0 false 0 false false false false false false false 0.
Definition Msg_zero : Msg := mkMsg MsgHdr_zero false [] [] [] [].

(** Assignments to the fields [createQuery] writes. *)
Definition with_Opcode (v : Z) (h : MsgHdr) : MsgHdr :=
  mkMsgHdr (Id h) (Response h) v (Authoritative h) (Truncated h)
    (RecursionDesired h) (RecursionAvailable h) (Zero h)
    (AuthenticatedData h) (CheckingDisabled h) (Rcode h).
Definition with_Id (v : N) (h : MsgHdr) : MsgHdr :=
  mkMsgHdr v (Response h) (Opcode h) (Authoritative h) (Truncated h)
    (RecursionDesired h) (RecursionAvailable h) (Zero h)
    (AuthenticatedData h) (CheckingDisabled h) (Rcode h).
Definition with_Rcode (v : Z) (h : MsgHdr) : MsgHdr :=
  mkMsgHdr (Id h) (Response h) (Opcode h) (Authoritative h) (Truncated h)
    (RecursionDesired h) (RecursionAvailable h) (Zero h)
    (AuthenticatedData h) (CheckingDisabled h) v.
Definition with_RecursionDesired (v : bool) (h : MsgHdr) : MsgHdr :=
  mkMsgHdr (Id h) (Response h) (Opcode h) (Authoritative h) (Truncated h)
    v (RecursionAvailable h) (Zero h)
    (AuthenticatedData h) (CheckingDisabled h) (Rcode h).
Definition on_Hdr (f : MsgHdr -> MsgHdr) (m : Msg) : Msg :=
  mkMsg (f (Hdr m)) (Compress m) (Questions m) (Answer m) (Ns m) (Extra m).
Definition on_Questions (f : list Question -> list Question) (m : Msg) : Msg :=
  mkMsg (Hdr m) (Compress m) (f (Questions m)) (Answer m) (Ns m) (Extra m).

(** The functions of the package the server calls. Their code is not
    part of this repository: the server is verified for any
    implementation of them.
    - [Fqdn s] is the fully-qualified form of the name [s];
    - [TypeString t] is [dns.Type(t).String()], the symbolic name of a
      record type;
    - [Unpack b] is [(&dns.Msg{}).Unpack(b)]: the message after the call
      and the error it returned;
    - [Pack m] is [m.Pack()]. *)
Class Lib : Type := {
  Fqdn : string -> string;
  TypeString : N -> string;
  Unpack : list byte -> Msg * error;
  Pack : Msg -> list byte * error
}.

End dns.

(** ** Package [net/http]: requests and the response writer *)

Module http.

(** [url.Values.Get] and [http.Header.Get]: the first value of the key,
    or the empty string. *)
Definition Get (m : gmap string (list string)) (key : string) : string :=
  match m !! key with
  | Some (v :: _) => v
  | _ => ""
  end.

(** [http.Header.Set] *)
Definition Set_ (key value : string) (m : gmap string (list string))
  : gmap string (list string) :=
  <[key := [value]]> m.

(** A request as the handler sees it: the method, the parsed query of the
    URL ([r.URL.Query()]), the headers under their canonical names, and
    what reading the body to its end gives ([ioutil.ReadAll(r.Body)]). *)
Record Request : Type := mkRequest {
  Method : string;
  URL_Query : gmap string (list string);
  Header : gmap string (list string);
  Body : list byte * error
}.

(** The response under construction: the header map, the status once the
    header is written, and the body written so far. *)
Record ResponseWriter : Type := mkResponseWriter {
  w_Header : gmap string (list string);
  w_Status : option Z;
  w_Body : list byte
}.

Definition StatusOK : Z := 200.
Definition StatusBadRequest : Z := 400.
Definition StatusInternalServerError : Z := 500.

Definition StatusText (code : Z) : string :=
  if (code =? StatusOK)%Z then "OK"
  else if (code =? StatusBadRequest)%Z then "Bad Request"
  else if (code =? StatusInternalServerError)%Z then "Internal Server Error"
  else "".

Definition Header_Set (key value : string) (w : ResponseWriter) : ResponseWriter :=
  mkResponseWriter (Set_ key value (w_Header w)) (w_Status w) (w_Body w).

(** [w.WriteHeader(code)]: only the first call sets the status. *)
Definition WriteHeader (code : Z) (w : ResponseWriter) : ResponseWriter :=
  match w_Status w with
  | Some _ => w
  | None => mkResponseWriter (w_Header w) (Some code) (w_Body w)
  end.

(** [w.Write(b)]: writes the header with status 200 if none was written,
    then appends to the body. *)
Definition Write (b : list byte) (w : ResponseWriter) : ResponseWriter :=
  let w := WriteHeader StatusOK w in
  mkResponseWriter (w_Header w) (w_Status w) (w_Body w ++ b).

(** [http.Error(w, text, code)] *)
Definition Error (text : string) (code : Z) (w : ResponseWriter) : ResponseWriter :=
  let w := Header_Set "Content-Type" "text/plain; charset=utf-8" w in
  let w := Header_Set "X-Content-Type-Options" "nosniff" w in
  let w := WriteHeader code w in
  Write (list_byte_of_string (String.append text (String "010" ""))) w.

(** The writer a handler is given. *)
Definition fresh : ResponseWriter := mkResponseWriter ∅ None [].

End http.

(** ** The server and the world around it *)

(** An established byte-stream connection ([net.Conn]), by its handle. *)
Definition NetConn : Type := nat.

(** [dns.Conn]: it embeds a [net.Conn], [nil] until one is dialled. *)
Record dnsConn : Type := mkConn { Conn : option NetConn }.

(** [type odohServer struct]; [connection] is a pointer, [None] is [nil]. *)
Record odohServer : Type := mkServer {
  verbose : bool;
  nameserver : string;
  timeout : time.Duration;
  connection : option dnsConn
}.

(** What a request does to the outside, in the order it does it. A log
    line is recorded by its text or format string, a dial with the
    connection it returned ([None] when it failed). [EvPanic] is a
    run-time panic (a [nil] dereference). *)
Inductive Event : Type :=
| EvLog (line : string)
| EvBodyRead
| EvBodyClose
| EvDial (network address : string) (d : time.Duration) (c : option NetConn)
| EvSetReadDeadline (c : NetConn) (t : time.Time)
| EvSetWriteDeadline (c : NetConn) (t : time.Time)
| EvWriteMsg (c : NetConn) (m : dns.Msg)
| EvReadMsg (c : NetConn)
| EvClose (c : NetConn)
| EvPanic (reason : string).

(** What the outside answers while one request is handled:
    - [net_DialTimeout network address d]: the new connection, or the
      reason of the failure;
    - [conn_WriteMsg c m]: the error the [WriteMsg] method of [dns.Conn] returns;
    - [conn_ReadMsg c]: the message the [ReadMsg] method returns, or the
      reason of the failure;
    - [time_Now k]: the instant the [k]-th call of [time.Now()] returns;
    - [dns_Id]: the random identifier [dns.Id()] returns. *)
Record Env : Type := mkEnv {
  net_DialTimeout : string -> string -> time.Duration -> NetConn + string;
  conn_WriteMsg : NetConn -> dns.Msg -> error;
  conn_ReadMsg : NetConn -> dns.Msg + string;
  time_Now : nat -> time.Time;
  dns_Id : N
}.

(** The state a request runs in: the server value [s] points to, the
    response writer [w], the number of clock readings so far, and the
    trace, most recent event last. *)
Record State : Type := mkState {
  server : odohServer;
  writer : http.ResponseWriter;
  clock : nat;
  trace : list Event
}.

Definition M (A : Type) : Type := State -> A * State.

#[export] Instance M_ret : MRet M := fun A (a : A) st => (a, st).
#[export] Instance M_bind : MBind M :=
  fun A B (f : A -> M B) (m : M A) st => let '(a, st') := m st in f a st'.

Definition emit (e : Event) : M unit :=
  fun st => (tt, mkState (server st) (writer st) (clock st) (trace st ++ [e])).

Definition log (line : string) : M unit := emit (EvLog line).

Definition get_server : M odohServer := fun st => (server st, st).

Definition put_server (s : odohServer) : M unit :=
  fun st => (tt, mkState s (writer st) (clock st) (trace st)).

Definition on_writer (f : http.ResponseWriter -> http.ResponseWriter) : M unit :=
  fun st => (tt, mkState (server st) (f (writer st)) (clock st) (trace st)).

(** [s.connection = p] *)
Definition set_connection (p : option dnsConn) : M unit :=
  s ← get_server;
  put_server (mkServer (verbose s) (nameserver s) (timeout s) p).

(** [s.connection.Conn = c] *)
Definition set_connection_Conn (c : option NetConn) : M unit :=
  s ← get_server;
  match connection s with
  | Some _ => set_connection (Some (mkConn c))
  | None => emit (EvPanic "nil pointer dereference")
  end.

(** A method called on [s.connection]: it needs the connection the field
    points to at the time of the call. *)
Definition on_connection {A} (f : NetConn -> M A) (dflt : A) : M A :=
  s ← get_server;
  match connection s with
  | Some (mkConn (Some c)) => f c
  | _ => emit (EvPanic "nil pointer dereference");; mret dflt
  end.

Section Server.
Context {L : dns.Lib} (E : Env).

(** [time.Now()] *)
Definition Now : M time.Time :=
  fun st => (time_Now E (clock st),
             mkState (server st) (writer st) (S (clock st)) (trace st)).

(** [net.DialTimeout] *)
Definition DialTimeout (network address : string) (d : time.Duration)
  : M (option NetConn * error) :=
  match net_DialTimeout E network address d with
  | inl c => emit (EvDial network address d (Some c));; mret (Some c, None)
  | inr e => emit (EvDial network address d None);; mret (None, Some e)
  end.

Definition SetReadDeadline (t : time.Time) : M unit :=
  on_connection (fun c => emit (EvSetReadDeadline c t)) tt.

Definition SetWriteDeadline (t : time.Time) : M unit :=
  on_connection (fun c => emit (EvSetWriteDeadline c t)) tt.

Definition WriteMsg (m : dns.Msg) : M error :=
  on_connection (fun c => emit (EvWriteMsg c m);; mret (conn_WriteMsg E c m)) None.

Definition ReadMsg : M (option dns.Msg * error) :=
  on_connection
    (fun c => emit (EvReadMsg c);;
              mret (match conn_ReadMsg E c with
                    | inl m => (Some m, None)
                    | inr e => (None, Some e)
                    end))
    (None, None).

(** [func (s *odohServer) startConnection] *)
Definition startConnection (nameserver : string) (timeout : time.Duration)
  : M error :=
  set_connection (Some (mkConn None));;
  '(c, err) ← DialTimeout "tcp" nameserver (time.mul timeout time.Millisecond);
  set_connection_Conn c;;
  if negb (is_nil err)
  then mret (Some "Failed starting resolver connection")
  else mret None.

(** [func (s *odohServer) resolve] *)
Definition resolve (msg : dns.Msg) : M (option dns.Msg * error) :=
  s ← get_server;
  err ← startConnection (nameserver s) (timeout s);
  if negb (is_nil err) then mret (None, err)
  else
    s ← get_server;
    t ← Now;
    SetReadDeadline (time.Add t (time.mul (timeout s) time.Millisecond));;
    s ← get_server;
    t ← Now;
    SetWriteDeadline (time.Add t (time.mul (timeout s) time.Millisecond));;
    err ← WriteMsg msg;
    if negb (is_nil err) then mret (None, err)
    else
      '(response, err) ← ReadMsg;
      if negb (is_nil err) then mret (None, err)
      else mret (response, None).

(** [msg.Question[0]], read only where the slice has one element. *)
Definition Question0 (msg : dns.Msg) : dns.Question :=
  match dns.Questions msg with
  | q :: _ => q
  | [] => dns.Question_zero
  end.

(** [func (s *odohServer) parseRequestFromGET]. The [err] of
    [if err := msg.Unpack(decoded); err != nil] is a variable of that
    statement only, here [err']; the [err] returned after the length
    check is the one [DecodeString] assigned. *)
Definition parseRequestFromGET (s : odohServer) (r : http.Request)
  : string * string * N * error :=
  let encoded := http.Get (http.URL_Query r) "dns" in
  if String.eqb encoded "" then
    ("", "", 0%N, Some "Missing DNS query parameter in GET request")
  else
    let '(decoded, err) := base64.DecodeString encoded in
    if negb (is_nil err) then ("", "", 0%N, err)
    else
      let '(msg, err') := dns.Unpack decoded in
      if negb (is_nil err') then ("", "", 0%N, err')
      else if negb (Nat.eqb (length (dns.Questions msg)) 1) then ("", "", 0%N, err)
      else (dns.Name (Question0 msg),
            dns.TypeString (dns.Qtype (Question0 msg)),
            dns.Id (dns.Hdr msg), None).

(** [ioutil.ReadAll(r.Body)] *)
Definition ReadAll (r : http.Request) : M (list byte * error) :=
  emit EvBodyRead;; mret (http.Body r).

(** [func (s *odohServer) parseRequestFromPOST]; the deferred
    [r.Body.Close()] runs when the part after it returns. *)
Definition parseRequestFromPOST (r : http.Request)
  : M (string * string * N * error) :=
  if negb (String.eqb (http.Get (http.Header r) "Content-Type")
                      "application/dns-message")
  then mret ("", "", 0%N,
             Some (String.append
                     "incorrect content type, expected 'application/dns-message', got "
                     (http.Get (http.Header r) "Content-Type")))
  else
    result ←
      ('(body, err) ← ReadAll r;
       if negb (is_nil err) then mret ("", "", 0%N, err)
       else
         let '(msg, err') := dns.Unpack body in
         if negb (is_nil err') then mret ("", "", 0%N, err')
         else if negb (Nat.eqb (length (dns.Questions msg)) 1)
         then mret ("", "", 0%N, err)
         else
           s ← get_server;
           (if verbose s then log "%s Unpacked DNS message:\n %s\n" else mret tt);;
           mret (dns.Name (Question0 msg),
                 dns.TypeString (dns.Qtype (Question0 msg)),
                 dns.Id (dns.Hdr msg), None));
    emit EvBodyClose;;
    mret result.

(** [func (s *odohServer) parseRequest] *)
Definition parseRequest (r : http.Request) : M (string * string * N * error) :=
  if String.eqb (http.Method r) "GET" then
    s ← get_server; mret (parseRequestFromGET s r)
  else if String.eqb (http.Method r) "POST" then parseRequestFromPOST r
  else mret ("", "", 0%N, Some "unsupported HTTP method").

(** [func createQuery]; [dns.Id()] is read from the environment. *)
Definition createQuery (n t : string) : dns.Msg :=
  let queryMessage :=
    dns.mkMsg (dns.with_Opcode dns.OpcodeQuery dns.MsgHdr_zero) false
      (replicate 1 dns.Question_zero) [] [] [] in
  let qtype := dns.TypeAAAA in
  let qtype := if String.eqb t "A" then dns.TypeA else qtype in
  let queryMessage :=
    dns.on_Questions
      (fun qs => <[0 := dns.mkQuestion (dns.Fqdn n) qtype dns.ClassINET]> qs)
      queryMessage in
  let queryMessage := dns.on_Hdr (dns.with_Id (dns_Id E)) queryMessage in
  let queryMessage := dns.on_Hdr (dns.with_Rcode dns.RcodeSuccess) queryMessage in
  let queryMessage := dns.on_Hdr (dns.with_RecursionDesired true) queryMessage in
  queryMessage.

Definition http_Error (text : string) (code : Z) : M unit :=
  on_writer (http.Error text code).

(** [func (s *odohServer) queryHandler] *)
Definition queryHandler (r : http.Request) : M unit :=
  log "Handling /odoh request";;
  '(n, t, id, err) ← parseRequest r;
  if negb (is_nil err) then
    log "Failed parsing request:";;
    http_Error (http.StatusText http.StatusBadRequest) http.StatusBadRequest
  else
    s ← get_server;
    (if verbose s then log "%s Resolving: %s %s %d" else mret tt);;
    let query := createQuery n t in
    start ← Now;
    '(response, err) ← resolve query;
    finish ← Now;
    let elapsed := time.Sub finish start in
    if negb (is_nil err) then
      log "Query failed:";;
      http_Error (http.StatusText http.StatusInternalServerError)
        http.StatusInternalServerError
    else
      match response with
      | None => emit (EvPanic "nil pointer dereference")
      | Some response =>
          let '(packed, err) := dns.Pack response in
          if negb (is_nil err) then
            log "Failed packing answers:";;
            http_Error (http.StatusText http.StatusInternalServerError)
              http.StatusInternalServerError
          else
            s ← get_server;
            (if verbose s then
               log "%s Query: qname='%s' qtype='%s' qid=%d elapsed=%s\n";;
               log "%s Answer: ";;
               log "%s Full response: %s\n";;
               log "%s Raw response: %x\n"
             else mret tt);;
            on_writer (http.Header_Set "Content-Type" "application/dns-message");;
            on_writer (http.Write packed)
      end.

End Server.

(** ** An implementation of [dns.Lib] to run the server on

    The wire format of RFC 1035 for the header, the questions and the
    resource records, with names written label by label (no compression,
    no escapes). The server is run on it at concrete requests; the
    theorems about the server hold for every implementation. *)

Module wire.
Import dns.

Definition u8 (n : N) : byte :=
  match Byte.of_N (n mod 256) with Some b => b | None => x00 end.
Definition u16 (n : N) : list byte := [u8 (n / 256); u8 n].
Definition u32 (n : N) : list byte := u16 (n / 65536) ++ u16 n.
Definition get16 (a b : byte) : N := (Byte.to_N a * 256 + Byte.to_N b)%N.

(** The labels of a name: the pieces between the dots. *)
Fixpoint split_dots (s : string) (cur : string) : list string :=
  match s with
  | EmptyString => [cur]
  | String c rest =>
      if Ascii.eqb c "."%char then cur :: split_dots rest ""
      else split_dots rest (String.append cur (String c ""))
  end.

Definition IsFqdn (s : string) : bool :=
  match last (list_ascii_of_string s) with
  | Some c => Ascii.eqb c "."%char
  | None => false
  end.

Definition Fqdn (s : string) : string :=
  if IsFqdn s then s else String.append s ".".

Definition packLabel (l : string) : option (list byte) :=
  let n := String.length l in
  if Nat.eqb n 0 || Nat.ltb 63 n then None
  else Some (u8 (N.of_nat n) :: list_byte_of_string l).

Fixpoint packLabels (ls : list string) : option (list byte) :=
  match ls with
  | [] => None
  | [l] => if String.eqb l "" then Some [x00] else None
  | l :: rest =>
      match packLabel l, packLabels rest with
      | Some a, Some b => Some (a ++ b)
      | _, _ => None
      end
  end.

Definition packDomainName (s : string) : option (list byte) :=
  if String.eqb s "." then Some [x00] else packLabels (split_dots s "").

Fixpoint unpackDomainName (fuel : nat) (bs : list byte) (acc : string)
  : option (string * list byte) :=
  match fuel, bs with
  | S fuel, n :: rest =>
      let k := N.to_nat (Byte.to_N n) in
      if Nat.eqb k 0 then
        Some (if String.eqb acc "" then "." else acc, rest)
      else if Nat.ltb 63 k || Nat.ltb (length rest) k then None
      else unpackDomainName fuel (drop k rest)
             (String.append acc
                (String.append (string_of_list_byte (take k rest)) "."))
  | _, _ => None
  end.

Definition packQuestion (q : Question) : option (list byte) :=
  match packDomainName (Name q) with
  | Some n => Some (n ++ u16 (Qtype q) ++ u16 (Qclass q))
  | None => None
  end.

Definition packRR (r : RR) : option (list byte) :=
  match packDomainName (RR_Name r) with
  | Some n =>
      Some (n ++ u16 (Rrtype r) ++ u16 (Class r) ++ u32 (Ttl r)
              ++ u16 (N.of_nat (length (Rdata r))) ++ Rdata r)
  | None => None
  end.

Fixpoint packAll {A} (f : A -> option (list byte)) (l : list A)
  : option (list byte) :=
  match l with
  | [] => Some []
  | x :: rest =>
      match f x, packAll f rest with
      | Some a, Some b => Some (a ++ b)
      | _, _ => None
      end
  end.

Definition b2N (b : bool) : N := if b then 1%N else 0%N.

Definition packHdr (h : MsgHdr) (qd an ns ar : nat) : list byte :=
  u16 (Id h)
  ++ [u8 (128 * b2N (Response h) + 8 * (Z.to_N (Opcode h) mod 16)
          + 4 * b2N (Authoritative h) + 2 * b2N (Truncated h)
          + b2N (RecursionDesired h));
      u8 (128 * b2N (RecursionAvailable h) + 64 * b2N (Zero h)
          + 32 * b2N (AuthenticatedData h) + 16 * b2N (CheckingDisabled h)
          + Z.to_N (Rcode h) mod 16)]
  ++ u16 (N.of_nat qd) ++ u16 (N.of_nat an)
  ++ u16 (N.of_nat ns) ++ u16 (N.of_nat ar).

Definition Pack (m : Msg) : list byte * error :=
  match packAll packQuestion (Questions m), packAll packRR (Answer m),
        packAll packRR (Ns m), packAll packRR (Extra m) with
  | Some qd, Some an, Some ns, Some ar =>
      (packHdr (Hdr m) (length (Questions m)) (length (Answer m))
         (length (Ns m)) (length (Extra m)) ++ qd ++ an ++ ns ++ ar, None)
  | _, _, _, _ => ([], Some "dns: domain must be fully qualified")
  end.

Definition unpackQuestion (bs : list byte) : option (Question * list byte) :=
  match unpackDomainName (length bs) bs "" with
  | Some (n, t1 :: t0 :: c1 :: c0 :: rest) =>
      Some (mkQuestion n (get16 t1 t0) (get16 c1 c0), rest)
  | _ => None
  end.

Definition unpackRR (bs : list byte) : option (RR * list byte) :=
  match unpackDomainName (length bs) bs "" with
  | Some (n, t1 :: t0 :: c1 :: c0 :: l3 :: l2 :: l1 :: l0 :: d1 :: d0 :: rest) =>
      let k := N.to_nat (get16 d1 d0) in
      if Nat.ltb (length rest) k then None
      else Some (mkRR n (get16 t1 t0) (get16 c1 c0)
                   (get16 l3 l2 * 65536 + get16 l1 l0) (take k rest),
                 drop k rest)
  | _ => None
  end.

Fixpoint unpackN {A} (f : list byte -> option (A * list byte)) (n : nat)
    (bs : list byte) : option (list A * list byte) :=
  match n with
  | O => Some ([], bs)
  | S n =>
      match f bs with
      | Some (x, rest) =>
          match unpackN f n rest with
          | Some (xs, rest) => Some (x :: xs, rest)
          | None => None
          end
      | None => None
      end
  end.

Definition unpackHdr (i1 i0 f1 f0 : byte) : MsgHdr :=
  let hi := Byte.to_N f1 in
  let lo := Byte.to_N f0 in
  mkMsgHdr (get16 i1 i0) (N.testbit hi 7) (Z.of_N ((hi / 8) mod 16))
    (N.testbit hi 2) (N.testbit hi 1) (N.testbit hi 0)
    (N.testbit lo 7) (N.testbit lo 6) (N.testbit lo 5) (N.testbit lo 4)
    (Z.of_N (lo mod 16)).

Definition ErrShort : error := Some "dns: overflow unpacking".

(** A message of the header alone unpacks to the header with empty
    sections, whatever its counts say. *)
Definition Unpack (bs : list byte) : Msg * error :=
  match bs with
  | i1 :: i0 :: f1 :: f0 :: q1 :: q0 :: a1 :: a0 :: n1 :: n0 :: e1 :: e0 :: rest =>
      let h := unpackHdr i1 i0 f1 f0 in
      match rest with
      | [] => (mkMsg h false [] [] [] [], None)
      | _ =>
          match unpackN unpackQuestion (N.to_nat (get16 q1 q0)) rest with
          | Some (qd, rest) =>
              match unpackN unpackRR (N.to_nat (get16 a1 a0)) rest with
              | Some (an, rest) =>
                  match unpackN unpackRR (N.to_nat (get16 n1 n0)) rest with
                  | Some (ns, rest) =>
                      match unpackN unpackRR (N.to_nat (get16 e1 e0)) rest with
                      | Some (ar, _) => (mkMsg h false qd an ns ar, None)
                      | None => (mkMsg h false qd an ns [], ErrShort)
                      end
                  | None => (mkMsg h false qd an [] [], ErrShort)
                  end
              | None => (mkMsg h false qd [] [] [], ErrShort)
              end
          | None => (mkMsg h false [] [] [] [], ErrShort)
          end
      end
  | _ => (Msg_zero, ErrShort)
  end.

Definition TypeString (t : N) : string :=
  if (t =? 1)%N then "A"
  else if (t =? 2)%N then "NS"
  else if (t =? 5)%N then "CNAME"
  else if (t =? 6)%N then "SOA"
  else if (t =? 12)%N then "PTR"
  else if (t =? 15)%N then "MX"
  else if (t =? 16)%N then "TXT"
  else if (t =? 28)%N then "AAAA"
  else if (t =? 33)%N then "SRV"
  else if (t =? 255)%N then "ANY"
  else String.append "TYPE" (pretty t).

Definition lib : dns.Lib := dns.Build_Lib Fqdn TypeString Unpack Pack.

End wire.

(** A question for [example.com.], and the same message with the question
    twice. *)
Definition example_query (t : N) : dns.Msg :=
  dns.mkMsg (dns.with_RecursionDesired true (dns.with_Id 4660 dns.MsgHdr_zero))
    false [dns.mkQuestion "example.com." t dns.ClassINET] [] [] [].

(** ** Running the server *)

(** The server value [main] builds; [2500 * time.Millisecond] is a constant
    of type [time.Duration]. *)
Definition main_server : odohServer :=
  mkServer true "1.1.1.1:53" (2500 * time.Millisecond)%Z None.

(** The state a request starts in: the server, a fresh response writer, no
    clock reading, an empty trace. *)
Definition init (s : odohServer) : State := mkState s http.fresh 0 [].

(** The duration [startConnection] and [resolve] compute from the
    configured timeout: [s.timeout * time.Millisecond]. *)
Definition used_timeout (s : odohServer) : time.Duration :=
  time.mul (timeout s) time.Millisecond.

(** The server after [startConnection]: only [connection] is assigned. *)
Definition dialled (s : odohServer) (c : option NetConn) : odohServer :=
  mkServer (verbose s) (nameserver s) (timeout s) (Some (mkConn c)).

(** The connections a trace opened and the ones it closed. *)
Fixpoint opened (tr : list Event) : list NetConn :=
  match tr with
  | [] => []
  | EvDial _ _ _ (Some c) :: tr => c :: opened tr
  | _ :: tr => opened tr
  end.

Fixpoint closed (tr : list Event) : list NetConn :=
  match tr with
  | [] => []
  | EvClose c :: tr => c :: closed tr
  | _ :: tr => closed tr
  end.

(** The messages a trace wrote to the resolver, in order. *)
Fixpoint sent (tr : list Event) : list dns.Msg :=
  match tr with
  | [] => []
  | EvWriteMsg _ m :: tr => m :: sent tr
  | _ :: tr => sent tr
  end.

(** ** Closed forms of the transport and of the handler *)

Section ClosedForms.
Context {L : dns.Lib} (E : Env).

(** The events of a round trip on the connection [c], up to the write. *)
Definition round_trip_events (st : State) (c : NetConn) (msg : dns.Msg)
  : list Event :=
  let s := server st in
  [ EvDial "tcp" (nameserver s) (used_timeout s) (Some c);
    EvSetReadDeadline c (time.Add (time_Now E (clock st)) (used_timeout s));
    EvSetWriteDeadline c (time.Add (time_Now E (S (clock st))) (used_timeout s));
    EvWriteMsg c msg ].

(** What the resolver transport returns for a query: the answer of the
    upstream resolver, or the error of the first step that failed. *)
Definition upstream_answer (s : odohServer) (query : dns.Msg) : dns.Msg + string :=
  match net_DialTimeout E "tcp" (nameserver s) (used_timeout s) with
  | inr _ => inr "Failed starting resolver connection"
  | inl c =>
      match conn_WriteMsg E c query with
      | Some e => inr e
      | None => conn_ReadMsg E c
      end
  end.

(** The connection [net.DialTimeout] returns to this server, if any. *)
Definition dial_result (s : odohServer) : option NetConn :=
  match net_DialTimeout E "tcp" (nameserver s) (used_timeout s) with
  | inl c => Some c
  | inr _ => None
  end.

(** What the handler does to the response writer, from what the decoder
    returned. *)
Definition respond (s : odohServer) (decoded : string * string * N * error)
  : http.ResponseWriter -> http.ResponseWriter :=
  let '(n, t, _, err) := decoded in
  if negb (is_nil err) then
    http.Error (http.StatusText http.StatusBadRequest) http.StatusBadRequest
  else
    match upstream_answer s (createQuery E n t) with
    | inr _ =>
        http.Error (http.StatusText http.StatusInternalServerError)
          http.StatusInternalServerError
    | inl response =>
        let '(packed, err) := dns.Pack response in
        if negb (is_nil err) then
          http.Error (http.StatusText http.StatusInternalServerError)
            http.StatusInternalServerError
        else
          fun w =>
            http.Write packed
              (http.Header_Set "Content-Type" "application/dns-message" w)
    end.

End ClosedForms.

(** ** Concrete requests, messages and environments *)

Definition get_request (q : string) : http.Request :=
  http.mkRequest "GET" {[ "dns" := [q] ]} ∅ ([], None).

Definition post_request (content_type : string) (body : list byte)
  : http.Request :=
  http.mkRequest "POST" ∅ {[ "Content-Type" := [content_type] ]} (body, None).

(** The twelve bytes of a header with every field zero: a message without
    a question. *)
Definition header_only : list byte := replicate 12 x00.

(** A message that asks for [example.com.] twice, as A and as AAAA. *)
Definition two_questions : dns.Msg :=
  dns.mkMsg (dns.with_RecursionDesired true (dns.with_Id 4660 dns.MsgHdr_zero))
    false
    [ dns.mkQuestion "example.com." dns.TypeA dns.ClassINET;
      dns.mkQuestion "example.com." dns.TypeAAAA dns.ClassINET ] [] [] [].

(** An answer that reports a failed resolution: response code 3
    (name error), no records. *)
Definition nxdomain_answer : dns.Msg :=
  dns.mkMsg
    (dns.mkMsgHdr 4919 true 0 false false true true false false false 3)
    false [dns.mkQuestion "example.com." dns.TypeA dns.ClassINET] [] [] [].

(** An answer with one A record for [example.com.]. *)
Definition a_record_answer : dns.Msg :=
  dns.mkMsg
    (dns.mkMsgHdr 4919 true 0 false false true true false false false 0)
    false [dns.mkQuestion "example.com." dns.TypeA dns.ClassINET]
    [dns.mkRR "example.com." dns.TypeA dns.ClassINET 300
       ["093"; "184"; "216"; "034"]%byte]
    [] [].

(** A resolver that accepts connection 1, takes the query and returns
    [answer]; the clock advances by one nanosecond per reading. *)
Definition env_up (answer : dns.Msg) : Env :=
  mkEnv (fun _ _ _ => inl 1) (fun _ _ => None) (fun _ => inl answer)
    (fun k => Z.of_nat k) 4919.

(** A resolver that refuses the connection. *)
Definition env_down : Env :=
  mkEnv (fun _ _ _ => inr "connection refused") (fun _ _ => None)
    (fun _ => inr "closed") (fun k => Z.of_nat k) 4919.

(** The words of the specification on the connection of a round trip:
    every connection the trace opened is closed in it. *)
Definition closes_what_it_opened (tr : list Event) : Prop :=
  forall c, In c (opened tr) -> In c (closed tr).

(** ** The other handlers *)

(** [http.StatusNotFound] and [http.NotFound(w, r)]. *)
Definition StatusNotFound : Z := 404.

Definition NotFound (w : http.ResponseWriter) : http.ResponseWriter :=
  http.Error "404 page not found" StatusNotFound w.

(** [fmt.Fprint(w, text)]: the bytes of the text are written to [w]. *)
Definition Fprint (text : string) : M unit :=
  on_writer (http.Write (list_byte_of_string text)).

(** A request with the path of its URL ([r.URL.Path]), which only the root
    handler reads. *)
Record PathRequest : Type := mkPathRequest {
  URL_Path : string;
  request : http.Request
}.

(** [func handle] *)
Definition handle (r : PathRequest) : M unit :=
  log "Received / request";;
  if negb (String.eqb (URL_Path r) "/") then on_writer NotFound
  else Fprint "ODOH, try /dns-query instead!".

(** [func healthCheckHandler] *)
Definition healthCheckHandler (r : http.Request) : M unit :=
  log "Received /health request";;
  Fprint "ok".

(** ** What a trace shows besides the log *)

Definition is_log (e : Event) : bool :=
  match e with EvLog _ => true | _ => false end.


(** The events of a trace that are not log lines. *)
Definition effects (tr : list Event) : list Event :=
  List.filter (fun e => negb (is_log e)) tr.

(** The body events of the decoder: a POST request with the right content
    type has its body read and closed, no other request has. *)
Definition body_events (r : http.Request) : list Event :=
  if String.eqb (http.Method r) "GET" then []
  else if String.eqb (http.Method r) "POST" then
    if String.eqb (http.Get (http.Header r) "Content-Type")
         "application/dns-message"
    then [EvBodyRead; EvBodyClose] else []
  else [].

(** The events of one round trip that starts at the [k]-th clock reading:
    the dial, and on a connection the two deadlines, the write and, when
    the write succeeded, the read. *)
Definition transport_events (E : Env) (s : odohServer) (k : nat) (msg : dns.Msg)
  : list Event :=
  match net_DialTimeout E "tcp" (nameserver s) (used_timeout s) with
  | inr _ => [EvDial "tcp" (nameserver s) (used_timeout s) None]
  | inl c =>
      [ EvDial "tcp" (nameserver s) (used_timeout s) (Some c);
        EvSetReadDeadline c (time.Add (time_Now E k) (used_timeout s));
        EvSetWriteDeadline c (time.Add (time_Now E (S k)) (used_timeout s));
        EvWriteMsg c msg ]
      ++ (if is_nil (conn_WriteMsg E c msg) then [EvReadMsg c] else [])
  end.

(** A question of type MX and class CHAOS, with the identifier 7 and the
    flags of a query that asks for no recursion. *)
Definition mx_query : dns.Msg :=
  dns.mkMsg (dns.with_Id 7 dns.MsgHdr_zero) false
    [dns.mkQuestion "example.org." 15 3] [] [] [].

(** A resolver that accepts connection 1 and fails the write. *)
Definition env_write_fails : Env :=
  mkEnv (fun _ _ _ => inl 1) (fun _ _ => Some "write: broken pipe")
    (fun _ => inl nxdomain_answer) (fun k => Z.of_nat k) 4919.

(** * Properties *)

Example base64_foobar :
  base64.EncodeToString (list_byte_of_string "foobar") = "Zm9vYmFy"
  /\ base64.EncodeToString (list_byte_of_string "fo") = "Zm8"
  /\ base64.DecodeString "Zm9vYg" = (list_byte_of_string "foob", None)
  /\ base64.DecodeString "Zm9vY" = (list_byte_of_string "foo", base64.CorruptInputError)
  /\ snd (base64.DecodeString "not-base64!!") = base64.CorruptInputError.
Proof. repeat split; vm_compute; reflexivity. Qed.

Example wire_pack_unpack :
  wire.Unpack (fst (wire.Pack (example_query dns.TypeA)))
  = (example_query dns.TypeA, None).
Proof. vm_compute. reflexivity. Qed.

(** ** [RawURLEncoding]: decoding an encoded byte sequence *)

Section Base64RoundTrip.
Import base64.

Lemma decodeMap_encodeChar (s : sextet) : decodeMap (encodeChar s) = Some s.
Proof.
  destruct s as [[[[[b5 b4] b3] b2] b1] b0].
  destruct b5, b4, b3, b2, b1, b0; reflexivity.
Qed.

Lemma encodeChar_not_newline (s : sextet) : is_newline (encodeChar s) = false.
Proof.
  destruct s as [[[[[b5 b4] b3] b2] b1] b0].
  destruct b5, b4, b3, b2, b1, b0; reflexivity.
Qed.

Lemma bits_byte_bits (b : byte) b7 b6 b5 b4 b3 b2 b1 b0 :
  byte_bits b = (b7, b6, b5, b4, b3, b2, b1, b0) ->
  bits_byte b7 b6 b5 b4 b3 b2 b1 b0 = b.
Proof.
  unfold byte_bits, bits_byte. intros H.
  rewrite <- (Byte.of_bits_to_bits b).
  destruct (Byte.to_bits b) as [c0 [c1 [c2 [c3 [c4 [c5 [c6 c7]]]]]]].
  now inversion H.
Qed.

(** Lists are cut three elements at a time. *)
Lemma list_ind3 {A} (P : list A -> Prop) :
  P [] -> (forall x, P [x]) -> (forall x y, P [x; y]) ->
  (forall x y z l, P l -> P (x :: y :: z :: l)) ->
  forall l, P l.
Proof.
  intros H0 H1 H2 H3.
  fix IH 1.
  intros [|x [|y [|z l]]]; [apply H0 | apply H1 | apply H2 | apply H3, IH].
Qed.

Ltac open_bits x :=
  let H := fresh "H" x in
  destruct (byte_bits x) as [[[[[[[? ?] ?] ?] ?] ?] ?] ?] eqn:H;
  apply bits_byte_bits in H.

Lemma decode_encode (bs : list byte) : decode (encode bs) = (bs, None).
Proof.
  induction bs as [|x|x y|x y z l IH] using list_ind3.
  - reflexivity.
  - cbn [encode]. unfold encode1. open_bits x.
    cbn [decode]. rewrite !decodeMap_encodeChar. cbn [out0].
    now rewrite Hx.
  - cbn [encode]. unfold encode2. open_bits x. open_bits y.
    cbn [decode]. rewrite !decodeMap_encodeChar. cbn [out0 out1].
    now rewrite Hx, Hy.
  - change (encode (x :: y :: z :: l)) with (encode3 x y z ++ encode l).
    unfold encode3. open_bits x. open_bits y. open_bits z.
    cbn [app decode]. rewrite !decodeMap_encodeChar, IH. cbn [out0 out1 out2].
    now rewrite Hx, Hy, Hz.
Qed.

Lemma encode_no_newline (bs : list byte) :
  List.filter (fun c => negb (is_newline c)) (encode bs) = encode bs.
Proof.
  induction bs as [|x|x y|x y z l IH] using list_ind3.
  - reflexivity.
  - cbn [encode]. unfold encode1. open_bits x.
    cbn [List.filter]. now rewrite !encodeChar_not_newline.
  - cbn [encode]. unfold encode2. open_bits x. open_bits y.
    cbn [List.filter]. now rewrite !encodeChar_not_newline.
  - change (encode (x :: y :: z :: l)) with (encode3 x y z ++ encode l).
    unfold encode3. open_bits x. open_bits y. open_bits z.
    cbn [app List.filter]. rewrite !encodeChar_not_newline. cbn [negb].
    now rewrite IH.
Qed.

(** Decoding what [EncodeToString] produced gives the bytes back. *)
Lemma DecodeString_EncodeToString (bs : list byte) :
  DecodeString (EncodeToString bs) = (bs, None).
Proof.
  unfold DecodeString, EncodeToString.
  rewrite list_ascii_of_string_of_list_ascii, encode_no_newline.
  apply decode_encode.
Qed.

(** Only the empty byte sequence encodes to the empty string. *)
Lemma EncodeToString_empty (bs : list byte) :
  EncodeToString bs = "" -> bs = [].
Proof.
  unfold EncodeToString.
  destruct bs as [|x [|y [|z l]]]; [reflexivity| | |]; cbn [encode].
  - unfold encode1. open_bits x. discriminate.
  - unfold encode2. open_bits x. open_bits y. discriminate.
  - unfold encode3. open_bits x. open_bits y. open_bits z. discriminate.
Qed.

End Base64RoundTrip.

Lemma opened_app (tr1 tr2 : list Event) : opened (tr1 ++ tr2) = opened tr1 ++ opened tr2.
Proof.
  induction tr1 as [|e tr1 IH]; [reflexivity|].
  destruct e as [| | | ? ? ? [c|] | | | | | |]; cbn; now rewrite IH.
Qed.

Lemma closed_app (tr1 tr2 : list Event) : closed (tr1 ++ tr2) = closed tr1 ++ closed tr2.
Proof.
  induction tr1 as [|e tr1 IH]; [reflexivity|].
  destruct e; cbn; now rewrite IH.
Qed.

Lemma sent_app (tr1 tr2 : list Event) : sent (tr1 ++ tr2) = sent tr1 ++ sent tr2.
Proof.
  induction tr1 as [|e tr1 IH]; [reflexivity|].
  destruct e; cbn; now rewrite IH.
Qed.

Ltac run_monad :=
  cbv [mbind mret M_bind M_ret get_server put_server set_connection
       set_connection_Conn on_connection emit log on_writer Now DialTimeout
       SetReadDeadline SetWriteDeadline WriteMsg ReadMsg ReadAll http_Error];
  cbn [server writer clock trace verbose nameserver timeout connection Conn
       negb is_nil fst snd].

Section Resolve.
Context {L : dns.Lib} (E : Env).

(** [resolve] in closed form, by what the outside answers. *)
Lemma resolve_run (msg : dns.Msg) (st : State) :
  resolve E msg st =
  let s := server st in
  match net_DialTimeout E "tcp" (nameserver s) (used_timeout s) with
  | inr _ =>
      (None, Some "Failed starting resolver connection",
       mkState (dialled s None) (writer st) (clock st)
         (trace st ++ [EvDial "tcp" (nameserver s) (used_timeout s) None]))
  | inl c =>
      match conn_WriteMsg E c msg with
      | Some e =>
          (None, Some e,
           mkState (dialled s (Some c)) (writer st) (S (S (clock st)))
             (trace st ++ round_trip_events E st c msg))
      | None =>
          (match conn_ReadMsg E c with
           | inl m => (Some m, None)
           | inr e => (None, Some e)
           end,
           mkState (dialled s (Some c)) (writer st) (S (S (clock st)))
             (trace st ++ round_trip_events E st c msg ++ [EvReadMsg c]))
      end
  end.
Proof.
  unfold resolve, startConnection, round_trip_events, used_timeout, dialled.
  run_monad.
  destruct (net_DialTimeout E _ _ _) as [c|e]; run_monad; [|reflexivity].
  destruct (conn_WriteMsg E c msg) as [e|]; run_monad.
  - now rewrite <- !app_assoc.
  - destruct (conn_ReadMsg E c) as [m|e]; run_monad; now rewrite <- !app_assoc.
Qed.

End Resolve.

Section Handler.
Context {L : dns.Lib} (E : Env).

(** The decoder touches neither the server value, nor the response
    writer, nor the clock. *)
Lemma parseRequest_frame (r : http.Request) (st : State) :
  server (snd (parseRequest r st)) = server st
  /\ writer (snd (parseRequest r st)) = writer st
  /\ clock (snd (parseRequest r st)) = clock st.
Proof.
  unfold parseRequest, parseRequestFromPOST. run_monad.
  repeat (case_match; run_monad); simplify_eq; cbn; auto.
Qed.

(** What the decoder returns depends on the request alone. *)
Lemma parseRequest_result (r : http.Request) (st st' : State) :
  fst (parseRequest r st) = fst (parseRequest r st').
Proof.
  unfold parseRequest, parseRequestFromPOST. run_monad.
  repeat (case_match; run_monad); simplify_eq; cbn; auto.
Qed.

Lemma resolve_result (msg : dns.Msg) (st : State) :
  fst (resolve E msg st) =
  match upstream_answer E (server st) msg with
  | inl m => (Some m, None)
  | inr e => (None, Some e)
  end.
Proof.
  rewrite resolve_run. unfold upstream_answer. cbn zeta.
  repeat case_match; simplify_eq; reflexivity.
Qed.

Lemma resolve_frame (msg : dns.Msg) (st : State) :
  server (snd (resolve E msg st)) = dialled (server st) (dial_result E (server st))
  /\ writer (snd (resolve E msg st)) = writer st.
Proof.
  rewrite resolve_run. unfold dial_result. cbn zeta.
  repeat case_match; simplify_eq; auto.
Qed.

Ltac run_handler Hs :=
  run_monad;
  rewrite resolve_run; cbn zeta; cbn [server writer clock trace];
  unfold upstream_answer, dial_result, used_timeout, dialled; rewrite ?Hs.

Lemma queryHandler_writer (r : http.Request) (st : State) :
  writer (snd (queryHandler E r st)) =
  respond E (server st) (fst (parseRequest r st)) (writer st).
Proof.
  unfold queryHandler. run_monad.
  set (st0 := mkState _ _ _ _).
  rewrite (parseRequest_result r st st0).
  destruct (parseRequest_frame r st0) as (Hs & Hw & _).
  destruct (parseRequest r st0) as [[[[n t] id] err] st1].
  cbn [fst snd] in *. subst st0. cbn [server writer] in *.
  unfold respond.
  destruct err as [e|]; run_monad; [now rewrite Hw|].
  destruct (verbose (server st1)); run_handler Hs.
  all: destruct (net_DialTimeout E _ _ _) as [c|?]; run_monad; [|congruence].
  all: destruct (conn_WriteMsg E c _) as [?|]; run_monad; [congruence|].
  all: destruct (conn_ReadMsg E c) as [m|?]; run_monad; [|congruence].
  all: destruct (dns.Pack m) as [packed [?|]]; run_monad; [congruence|].
  all: destruct (verbose (server st)); run_monad; congruence.
Qed.

Lemma queryHandler_server (r : http.Request) (st : State) :
  server (snd (queryHandler E r st)) =
  let '(_, _, _, err) := fst (parseRequest r st) in
  if is_nil err then dialled (server st) (dial_result E (server st))
  else server st.
Proof.
  unfold queryHandler. run_monad.
  set (st0 := mkState _ _ _ _).
  rewrite (parseRequest_result r st st0).
  destruct (parseRequest_frame r st0) as (Hs & _ & _).
  destruct (parseRequest r st0) as [[[[n t] id] err] st1].
  cbn [fst snd] in *. subst st0. cbn [server] in *.
  destruct err as [e|]; run_monad; [assumption|].
  destruct (verbose (server st1)); run_handler Hs.
  all: destruct (net_DialTimeout E _ _ _) as [c|?]; run_monad; [|reflexivity].
  all: destruct (conn_WriteMsg E c _) as [?|]; run_monad; [reflexivity|].
  all: destruct (conn_ReadMsg E c) as [m|?]; run_monad; [|reflexivity].
  all: destruct (dns.Pack m) as [packed [?|]]; run_monad; [reflexivity|].
  all: destruct (verbose (server st)); run_monad; reflexivity.
Qed.

(** The decoder writes nothing to the resolver. *)
Lemma parseRequest_sent (r : http.Request) (st : State) :
  sent (trace (snd (parseRequest r st))) = sent (trace st).
Proof.
  unfold parseRequest, parseRequestFromPOST. run_monad.
  repeat (case_match; run_monad); simplify_eq; cbn [snd trace];
    rewrite ?sent_app; cbn [sent]; rewrite ?app_nil_r; reflexivity.
Qed.

(** One request writes at most one message to the resolver: the query
    [createQuery] builds from the decoded name and type, when the decoder
    accepted the request and the dial succeeded. The identifier of the
    inbound message has no part in it. *)
Lemma queryHandler_sent (r : http.Request) (st : State) :
  sent (trace (snd (queryHandler E r st))) =
  sent (trace st)
  ++ (let '(n, t, _, err) := fst (parseRequest r st) in
      if is_nil err && negb (is_nil (dial_result E (server st)))
      then [createQuery E n t] else []).
Proof.
  unfold queryHandler. run_monad.
  set (st0 := mkState _ _ _ _).
  rewrite (parseRequest_result r st st0).
  destruct (parseRequest_frame r st0) as (Hs & _ & _).
  pose proof (parseRequest_sent r st0) as Ht.
  destruct (parseRequest r st0) as [[[[n t] id] err] st1].
  cbn [fst snd] in *. subst st0. cbn [server trace] in *.
  rewrite sent_app in Ht. cbn [sent] in Ht. rewrite app_nil_r in Ht.
  assert (Hfin : forall l1 l2,
            sent l1 = l2 -> sent (trace st1 ++ l1) = sent (trace st) ++ l2).
  { intros l1 l2 <-. now rewrite sent_app, Ht. }
  destruct err as [e|]; run_monad.
  { rewrite <- ?app_assoc. now apply Hfin. }
  destruct (verbose (server st1)); run_handler Hs.
  all: destruct (net_DialTimeout E _ _ _) as [c|?]; run_monad;
    [|rewrite <- ?app_assoc; now apply Hfin].
  all: unfold round_trip_events; cbn [server clock].
  all: destruct (conn_WriteMsg E c _) as [?|]; run_monad;
    [rewrite <- ?app_assoc; now apply Hfin|].
  all: destruct (conn_ReadMsg E c) as [m|?]; run_monad;
    [|rewrite <- ?app_assoc; now apply Hfin].
  all: destruct (dns.Pack m) as [packed [?|]]; run_monad;
    [rewrite <- ?app_assoc; now apply Hfin|].
  all: destruct (verbose (server st)); run_monad;
    rewrite <- ?app_assoc; now apply Hfin.
Qed.

End Handler.

(** ** The decoder on a message without exactly one question *)

Section QuestionCount.
Context {L : dns.Lib}.

(** A GET request whose bytes unpack to a message without exactly one
    question is returned with a [nil] error: the [err] in scope at the
    length check is the one of [DecodeString]. *)
Lemma parseRequestFromGET_question_count (s : odohServer) (r : http.Request)
    (bs : list byte) (msg : dns.Msg) :
  http.Get (http.URL_Query r) "dns" <> "" ->
  base64.DecodeString (http.Get (http.URL_Query r) "dns") = (bs, None) ->
  dns.Unpack bs = (msg, None) ->
  length (dns.Questions msg) <> 1 ->
  parseRequestFromGET s r = ("", "", 0%N, None).
Proof.
  intros Hne Hdec Hun Hlen. unfold parseRequestFromGET.
  apply String.eqb_neq in Hne. rewrite Hne, Hdec. cbn. rewrite Hun. cbn.
  apply Nat.eqb_neq in Hlen. now rewrite Hlen.
Qed.

(** The same on the POST path: the [err] is the one of [ReadAll]. *)
Lemma parseRequestFromPOST_question_count (r : http.Request) (st : State)
    (bs : list byte) (msg : dns.Msg) :
  http.Get (http.Header r) "Content-Type" = "application/dns-message" ->
  http.Body r = (bs, None) ->
  dns.Unpack bs = (msg, None) ->
  length (dns.Questions msg) <> 1 ->
  fst (parseRequestFromPOST r st) = ("", "", 0%N, None).
Proof.
  intros Hct Hbody Hun Hlen. unfold parseRequestFromPOST.
  rewrite Hct. cbn. run_monad. rewrite Hbody. cbn. rewrite Hun. cbn.
  apply Nat.eqb_neq in Hlen. now rewrite Hlen.
Qed.

End QuestionCount.

(** C1. A request whose message has no question, or two, passes the
    decoder: [parseRequestFromGET] and [parseRequestFromPOST] return a
    [nil] error with an empty name and type, and the handler goes on to
    synthesize and send a query for the root name, answering with status
    200 instead of 400. *)
Theorem question_count_violation_returns_nil :
  wire.Unpack header_only = (dns.Msg_zero, None)
  /\ base64.EncodeToString header_only = "AAAAAAAAAAAAAAAA"
  /\ parseRequestFromGET (L := wire.lib) main_server
       (get_request "AAAAAAAAAAAAAAAA") = ("", "", 0%N, None)
  /\ fst (parseRequestFromPOST (L := wire.lib)
            (post_request "application/dns-message" header_only)
            (init main_server)) = ("", "", 0%N, None)
  /\ wire.Unpack (fst (wire.Pack two_questions)) = (two_questions, None)
  /\ parseRequestFromGET (L := wire.lib) main_server
       (get_request (base64.EncodeToString (fst (wire.Pack two_questions))))
     = ("", "", 0%N, None)
  /\ fst (parseRequestFromPOST (L := wire.lib)
            (post_request "application/dns-message" (fst (wire.Pack two_questions)))
            (init main_server)) = ("", "", 0%N, None)
  /\ http.w_Status
       (writer (snd (queryHandler (L := wire.lib) (env_up nxdomain_answer)
                       (get_request "AAAAAAAAAAAAAAAA") (init main_server))))
     = Some http.StatusOK
  /\ In (EvWriteMsg 1
           (dns.mkMsg
              (dns.mkMsgHdr 4919 false 0 false false true false false false false 0)
              false [dns.mkQuestion "." dns.TypeAAAA dns.ClassINET] [] [] []))
        (trace (snd (queryHandler (L := wire.lib) (env_up nxdomain_answer)
                       (get_request "AAAAAAAAAAAAAAAA") (init main_server)))).
Proof.
  repeat split; try (vm_compute; reflexivity).
  vm_compute. tauto.
Qed.

(** ** The durations of the resolver transport *)

(** X21. While the product fits 64 bits, the duration the transport uses
    is a million times the configured one. *)
Lemma used_timeout_scaled (s : odohServer) :
  (0 <= timeout s < 9223372036854)%Z ->
  used_timeout s = (1000000 * timeout s)%Z.
Proof.
  intros H. unfold used_timeout, time.mul, time.int64, time.Millisecond.
  rewrite Z.mod_small; lia.
Qed.

(** X20. The dial timeout and both deadlines are computed from the same
    product: the deadlines lie [used_timeout] after the clock readings at
    which they are set, the read deadline first, both after the dial and
    before the write. *)
Lemma resolve_durations (E : Env) (msg : dns.Msg) (st : State)
    (c : NetConn) :
  net_DialTimeout E "tcp" (nameserver (server st)) (used_timeout (server st))
    = inl c ->
  exists rest,
    trace (snd (resolve E msg st)) =
    trace st
    ++ [ EvDial "tcp" (nameserver (server st)) (used_timeout (server st)) (Some c);
         EvSetReadDeadline c
           (time.Add (time_Now E (clock st)) (used_timeout (server st)));
         EvSetWriteDeadline c
           (time.Add (time_Now E (S (clock st))) (used_timeout (server st)));
         EvWriteMsg c msg ]
    ++ rest.
Proof.
  intros Hdial. rewrite resolve_run. cbn zeta. rewrite Hdial.
  unfold round_trip_events.
  destruct (conn_WriteMsg E c msg); cbn [snd trace].
  - exists []. now rewrite app_nil_r.
  - now exists [EvReadMsg c].
Qed.

(** C2. With the server [main] configures (a timeout of 2.5 seconds), the
    transport dials with a timeout of 2 500 000 seconds and sets both
    deadlines that far ahead: [s.timeout], already a duration, is
    multiplied by [time.Millisecond] once more. *)
Theorem main_timeout_scaled_twice :
  timeout main_server = 2500000000%Z
  /\ used_timeout main_server = 2500000000000000%Z
  /\ used_timeout main_server <> timeout main_server
  /\ trace (snd (resolve (env_up nxdomain_answer)
                   (example_query dns.TypeA) (init main_server)))
     = [ EvDial "tcp" "1.1.1.1:53" 2500000000000000%Z (Some 1);
         EvSetReadDeadline 1 2500000000000000%Z;
         EvSetWriteDeadline 1 2500000000000001%Z;
         EvWriteMsg 1 (example_query dns.TypeA);
         EvReadMsg 1 ].
Proof.
  repeat split; try (vm_compute; reflexivity).
  vm_compute. discriminate.
Qed.

(** ** The connection of a round trip *)

(** C3, as the specification words it, fails: after a successful round
    trip the connection [resolve] opened has not been closed. *)
Lemma resolve_leaves_connection_open :
  opened (trace (snd (resolve (env_up nxdomain_answer)
                        (example_query dns.TypeA) (init main_server)))) = [1]
  /\ closed (trace (snd (resolve (env_up nxdomain_answer)
                           (example_query dns.TypeA) (init main_server)))) = []
  /\ ~ closes_what_it_opened
         (trace (snd (resolve (env_up nxdomain_answer)
                        (example_query dns.TypeA) (init main_server)))).
Proof.
  split; [vm_compute; reflexivity|].
  split; [vm_compute; reflexivity|].
  intros H. specialize (H 1). vm_compute in H. tauto.
Qed.

(** C3, amended. [resolve] closes nothing, on any outcome. When the dial
    fails no connection was opened; otherwise the connection it opened is
    the one more in the trace, it is still open when [resolve] returns,
    and the field [connection] of the server keeps it. *)
Theorem resolve_never_closes (E : Env) (msg : dns.Msg) (st : State) :
  closed (trace (snd (resolve E msg st))) = closed (trace st)
  /\ opened (trace (snd (resolve E msg st)))
     = opened (trace st)
       ++ match dial_result E (server st) with Some c => [c] | None => [] end
  /\ connection (server (snd (resolve E msg st)))
     = Some (mkConn (dial_result E (server st))).
Proof.
  rewrite resolve_run. unfold dial_result, round_trip_events. cbn zeta.
  destruct (net_DialTimeout E _ _ _) as [c|e].
  - destruct (conn_WriteMsg E c msg); cbn [snd trace server connection dialled];
      rewrite closed_app, opened_app; cbn; now rewrite app_nil_r.
  - cbn [snd trace server connection dialled].
    rewrite closed_app, opened_app; cbn. now rewrite app_nil_r.
Qed.

(** ** The server value across a request *)

(** C4, as the specification words it, fails: a request that passes the
    decoder leaves another [connection] in the server value. *)
Lemma handler_overwrites_connection :
  connection main_server = None
  /\ connection
       (server (snd (queryHandler (L := wire.lib) (env_up nxdomain_answer)
                       (get_request
                          (base64.EncodeToString
                             (fst (wire.Pack (example_query dns.TypeA)))))
                       (init main_server))))
     = Some (mkConn (Some 1))
  /\ server (snd (queryHandler (L := wire.lib) (env_up nxdomain_answer)
                    (get_request
                       (base64.EncodeToString
                          (fst (wire.Pack (example_query dns.TypeA)))))
                    (init main_server)))
     <> server (init main_server).
Proof.
  split; [reflexivity|].
  split; [vm_compute; reflexivity|].
  vm_compute. discriminate.
Qed.

(** C4, amended. Handling a request leaves [verbose], [nameserver] and
    [timeout] as they were. The field [connection] is left as it was when
    the decoder rejects the request; every request that passes the decoder
    assigns it a new [dns.Conn] holding what the dial returned. *)
Theorem handler_keeps_configuration {L : dns.Lib} (E : Env) (r : http.Request)
    (st : State) :
  verbose (server (snd (queryHandler E r st))) = verbose (server st)
  /\ nameserver (server (snd (queryHandler E r st))) = nameserver (server st)
  /\ timeout (server (snd (queryHandler E r st))) = timeout (server st)
  /\ connection (server (snd (queryHandler E r st)))
     = if is_nil (snd (fst (parseRequest r st)))
       then Some (mkConn (dial_result E (server st)))
       else connection (server st).
Proof.
  rewrite queryHandler_server.
  destruct (fst (parseRequest r st)) as [[[n t] id] [e|]]; cbn; auto.
Qed.

(** ** The synthesized query *)

(** [createQuery] in closed form. *)
Lemma createQuery_eq {L : dns.Lib} (E : Env) (n t : string) :
  createQuery E n t =
  dns.mkMsg
    (dns.mkMsgHdr (dns_Id E) false dns.OpcodeQuery false false true false false
       false false dns.RcodeSuccess)
    false
    [dns.mkQuestion (dns.Fqdn n)
       (if String.eqb t "A" then dns.TypeA else dns.TypeAAAA) dns.ClassINET]
    [] [] [].
Proof. reflexivity. Qed.

(** C5. The record type of the question of [createQuery n t] is A exactly
    when [t] is the string "A", and AAAA for every other [t]. *)
Theorem createQuery_qtype {L : dns.Lib} (E : Env) (n t : string) :
  dns.Qtype (Question0 (createQuery E n t))
  = (if decide (t = "A") then dns.TypeA else dns.TypeAAAA)
  /\ (dns.Qtype (Question0 (createQuery E n t)) = dns.TypeA <-> t = "A")
  /\ (dns.Qtype (Question0 (createQuery E n t)) = dns.TypeAAAA <-> t <> "A").
Proof.
  rewrite createQuery_eq. unfold Question0. cbn [dns.Questions dns.Qtype].
  destruct (String.eqb_spec t "A") as [Heq|Hne]; case_decide; try contradiction;
    repeat split; intros;
    first [reflexivity | assumption | discriminate | contradiction].
Qed.

(** C6. [createQuery] is a total function. Its message has the opcode of
    a standard query, the response code of success, the recursion-desired
    flag set, every other flag clear, the identifier [dns.Id()] drew (the
    identifier of the inbound message is not among its arguments), and one
    question: the fully-qualified form of [n], of class Internet. *)
Theorem createQuery_message {L : dns.Lib} (E : Env) (n t : string) :
  dns.Opcode (dns.Hdr (createQuery E n t)) = dns.OpcodeQuery
  /\ dns.Rcode (dns.Hdr (createQuery E n t)) = dns.RcodeSuccess
  /\ dns.RecursionDesired (dns.Hdr (createQuery E n t)) = true
  /\ dns.Id (dns.Hdr (createQuery E n t)) = dns_Id E
  /\ length (dns.Questions (createQuery E n t)) = 1
  /\ dns.Name (Question0 (createQuery E n t)) = dns.Fqdn n
  /\ dns.Qclass (Question0 (createQuery E n t)) = dns.ClassINET
  /\ createQuery E n t =
     dns.mkMsg
       (dns.mkMsgHdr (dns_Id E) false dns.OpcodeQuery false false true false
          false false false dns.RcodeSuccess)
       false
       [dns.mkQuestion (dns.Fqdn n)
          (if String.eqb t "A" then dns.TypeA else dns.TypeAAAA) dns.ClassINET]
       [] [] [].
Proof. repeat split. Qed.

(** ** The content type of a POST request *)

(** C7. A POST request whose Content-Type is not exactly
    [application/dns-message] gets an error from [parseRequestFromPOST]
    in the state the call started in (no body event, nothing unpacked),
    whatever the body holds; the handler answers 400 and the trace has
    its two log lines only. *)
Theorem content_type_gate {L : dns.Lib} (E : Env) (s : odohServer)
    (r : http.Request) (st : State) :
  http.Method r = "POST" ->
  http.Get (http.Header r) "Content-Type" <> "application/dns-message" ->
  parseRequestFromPOST r st
  = ("", "", 0%N,
     Some (String.append
             "incorrect content type, expected 'application/dns-message', got "
             (http.Get (http.Header r) "Content-Type")), st)
  /\ queryHandler E r (init s)
     = (tt, mkState s
              (http.Error "Bad Request" http.StatusBadRequest http.fresh) 0
              [EvLog "Handling /odoh request"; EvLog "Failed parsing request:"])
  /\ http.w_Status (writer (snd (queryHandler E r (init s))))
     = Some http.StatusBadRequest
  /\ ~ In EvBodyRead (trace (snd (queryHandler E r (init s)))).
Proof.
  intros Hm Hct. apply String.eqb_neq in Hct.
  assert (Hpost : forall st0, parseRequestFromPOST r st0
            = ("", "", 0%N,
               Some (String.append
                       "incorrect content type, expected 'application/dns-message', got "
                       (http.Get (http.Header r) "Content-Type")), st0)).
  { intros st0. unfold parseRequestFromPOST. now rewrite Hct. }
  assert (Hrun : queryHandler E r (init s)
            = (tt, mkState s
                     (http.Error "Bad Request" http.StatusBadRequest http.fresh) 0
                     [EvLog "Handling /odoh request";
                      EvLog "Failed parsing request:"])).
  { unfold queryHandler, parseRequest. rewrite Hm. cbn [String.eqb Ascii.eqb].
    run_monad. cbn. rewrite Hpost. run_monad. reflexivity. }
  split; [apply Hpost|]. split; [exact Hrun|]. rewrite Hrun. split.
  - reflexivity.
  - cbn. intros [H|[H|[]]]; discriminate H.
Qed.

Lemma content_type_gate_witness :
  http.Method (post_request "application/dns" (fst (wire.Pack (example_query dns.TypeA))))
  = "POST"
  /\ http.Get
       (http.Header (post_request "application/dns"
                       (fst (wire.Pack (example_query dns.TypeA)))))
       "Content-Type" <> "application/dns-message"
  /\ http.w_Status
       (writer (snd (queryHandler (L := wire.lib) (env_up nxdomain_answer)
                       (post_request "application/dns"
                          (fst (wire.Pack (example_query dns.TypeA))))
                       (init main_server))))
     = Some http.StatusBadRequest.
Proof.
  assert (H1 : http.Method
                 (post_request "application/dns"
                    (fst (wire.Pack (example_query dns.TypeA)))) = "POST")
    by reflexivity.
  assert (H2 : http.Get
                 (http.Header (post_request "application/dns"
                                 (fst (wire.Pack (example_query dns.TypeA)))))
                 "Content-Type" <> "application/dns-message")
    by (vm_compute; discriminate).
  split; [exact H1|]. split; [exact H2|].
  exact (proj1 (proj2 (proj2
    (content_type_gate (L := wire.lib) (env_up nxdomain_answer) main_server
       _ (init main_server) H1 H2)))).
Defined.

(** ** Errors and statuses *)

(** X19. The status of the response, by the stage that failed: 400 for an
    error of the decoder, 500 for an error of the transport or of [Pack],
    200 otherwise. *)
Lemma error_status_mapping {L : dns.Lib} (E : Env) (r : http.Request)
    (s : odohServer) :
  http.w_Status (writer (snd (queryHandler E r (init s))))
  = Some (let '(n, t, _, err) := fst (parseRequest r (init s)) in
          if negb (is_nil err) then http.StatusBadRequest
          else
            match upstream_answer E s (createQuery E n t) with
            | inr _ => http.StatusInternalServerError
            | inl response =>
                if negb (is_nil (snd (dns.Pack response)))
                then http.StatusInternalServerError
                else http.StatusOK
            end).
Proof.
  rewrite queryHandler_writer. unfold respond. cbn [init server writer].
  destruct (fst (parseRequest r (init s))) as [[[n t] id] [e|]];
    cbn [negb is_nil]; [reflexivity|].
  destruct (upstream_answer E s (createQuery E n t)) as [m|e]; [|reflexivity].
  destruct (dns.Pack m) as [packed [e|]]; reflexivity.
Qed.

(** C8. A request whose message has no question, or two, is not answered
    with 400:
    the decoder returns no error for it, so the handler answers 200 when
    the resolver answers and 500 when the resolver is down. (Every error
    the decoder does return gives 400, and every error of the transport or
    of [Pack] gives 500: [error_status_mapping].) *)
Theorem question_count_violation_status :
  length (dns.Questions (fst (wire.Unpack header_only))) = 0
  /\ snd (fst (parseRequest (L := wire.lib) (get_request "AAAAAAAAAAAAAAAA")
                 (init main_server))) = None
  /\ http.w_Status
       (writer (snd (queryHandler (L := wire.lib) (env_up nxdomain_answer)
                       (get_request "AAAAAAAAAAAAAAAA") (init main_server))))
     = Some http.StatusOK
  /\ http.w_Status
       (writer (snd (queryHandler (L := wire.lib) env_down
                       (get_request "AAAAAAAAAAAAAAAA") (init main_server))))
     = Some http.StatusInternalServerError
  /\ http.w_Status
       (writer (snd (queryHandler (L := wire.lib) (env_up nxdomain_answer)
                       (post_request "application/dns-message" header_only)
                       (init main_server))))
     = Some http.StatusOK
  /\ length (dns.Questions (fst (wire.Unpack (fst (wire.Pack two_questions))))) = 2
  /\ http.w_Status
       (writer (snd (queryHandler (L := wire.lib) (env_up nxdomain_answer)
                       (get_request
                          (base64.EncodeToString (fst (wire.Pack two_questions))))
                       (init main_server))))
     = Some http.StatusOK.
Proof. repeat split; vm_compute; reflexivity. Qed.

(** ** The round trip of a query through a GET request *)

(** C9, as the specification words it, fails on a message with two
    questions: it packs, it unpacks to itself, the decoder returns no
    error, and what it returns is the name and type of neither question. *)
Lemma round_trip_two_questions :
  wire.Pack two_questions = (fst (wire.Pack two_questions), None)
  /\ wire.Unpack (fst (wire.Pack two_questions)) = (two_questions, None)
  /\ parseRequestFromGET (L := wire.lib) main_server
       (get_request (base64.EncodeToString (fst (wire.Pack two_questions))))
     = ("", "", 0%N, None)
  /\ ~ (exists q, In q (dns.Questions two_questions)
          /\ parseRequestFromGET (L := wire.lib) main_server
               (get_request
                  (base64.EncodeToString (fst (wire.Pack two_questions))))
             = (dns.Name q, wire.TypeString (dns.Qtype q),
                dns.Id (dns.Hdr two_questions), None)).
Proof.
  split; [vm_compute; reflexivity|].
  split; [vm_compute; reflexivity|].
  split; [vm_compute; reflexivity|].
  intros (q & Hq & Heq). vm_compute in Heq.
  cbn in Hq. destruct Hq as [<-|[<-|[]]]; discriminate Heq.
Qed.

(** C9, amended. Take a message with exactly one question, the bytes
    [Pack] gives for it (a packed message is not empty), and let those
    bytes unpack to a message with the same question. Encoded in unpadded
    base64url and passed as the [dns] parameter of a GET request, they
    make [parseRequestFromGET] return no error, the name of the question
    and the symbolic name of its type. *)
Theorem GET_round_trip {L : dns.Lib} (s : odohServer) (r : http.Request)
    (m m' : dns.Msg) (bs : list byte) (q : dns.Question) :
  dns.Pack m = (bs, None) ->
  bs <> [] ->
  dns.Unpack bs = (m', None) ->
  dns.Questions m' = dns.Questions m ->
  dns.Questions m = [q] ->
  http.Get (http.URL_Query r) "dns" = base64.EncodeToString bs ->
  parseRequestFromGET s r
  = (dns.Name q, dns.TypeString (dns.Qtype q), dns.Id (dns.Hdr m'), None).
Proof.
  intros _ Hne Hun Hsame Hone Hq. unfold parseRequestFromGET.
  rewrite Hq.
  destruct (String.eqb_spec (base64.EncodeToString bs) "") as [He|_].
  { apply EncodeToString_empty in He. contradiction. }
  rewrite DecodeString_EncodeToString. cbn [negb is_nil].
  rewrite Hun. cbn [negb is_nil]. unfold Question0.
  rewrite Hsame, Hone. reflexivity.
Qed.

Lemma GET_round_trip_witness :
  parseRequestFromGET (L := wire.lib) main_server
    (get_request
       (base64.EncodeToString (fst (wire.Pack (example_query dns.TypeAAAA)))))
  = ("example.com.", "AAAA", 4660%N, None).
Proof.
  refine (GET_round_trip (L := wire.lib) main_server
            (get_request
               (base64.EncodeToString
                  (fst (wire.Pack (example_query dns.TypeAAAA)))))
            (example_query dns.TypeAAAA) (example_query dns.TypeAAAA)
            (fst (wire.Pack (example_query dns.TypeAAAA)))
            (dns.mkQuestion "example.com." dns.TypeAAAA dns.ClassINET)
            _ _ _ _ _ _).
  - vm_compute. reflexivity.
  - vm_compute. discriminate.
  - vm_compute. reflexivity.
  - reflexivity.
  - reflexivity.
  - vm_compute. reflexivity.
Defined.

(** ** The response to an answer *)

(** C10. When the decoder accepts the request, [resolve] returns an answer
    and [Pack] succeeds on it, the response has the header Content-Type
    set to [application/dns-message] and no other, the status 200, and as
    its body the bytes [Pack] gave for the answer, whatever the response
    code and the records of the answer. *)
Theorem answer_relayed {L : dns.Lib} (E : Env) (s : odohServer)
    (r : http.Request) (n t : string) (id : N) (answer : dns.Msg)
    (packed : list byte) :
  fst (parseRequest r (init s)) = (n, t, id, None) ->
  fst (resolve E (createQuery E n t) (init s)) = (Some answer, None) ->
  dns.Pack answer = (packed, None) ->
  writer (snd (queryHandler E r (init s)))
  = http.mkResponseWriter {[ "Content-Type" := ["application/dns-message"] ]}
      (Some http.StatusOK) packed.
Proof.
  intros Hparse Hres Hpack.
  rewrite queryHandler_writer, Hparse. unfold respond. cbn [negb is_nil].
  rewrite resolve_result in Hres. cbn [init server] in *.
  destruct (upstream_answer E s (createQuery E n t)) as [m|e];
    [|discriminate Hres].
  injection Hres as ->. rewrite Hpack. cbn [negb is_nil].
  reflexivity.
Qed.

Lemma answer_relayed_witness :
  writer (snd (queryHandler (L := wire.lib) (env_up nxdomain_answer)
                 (get_request
                    (base64.EncodeToString
                       (fst (wire.Pack (example_query dns.TypeA)))))
                 (init main_server)))
  = http.mkResponseWriter {[ "Content-Type" := ["application/dns-message"] ]}
      (Some http.StatusOK) (fst (wire.Pack nxdomain_answer)).
Proof.
  refine (answer_relayed (L := wire.lib) (env_up nxdomain_answer) main_server
            _ "example.com." "A" 4660%N nxdomain_answer
            (fst (wire.Pack nxdomain_answer)) _ _ _).
  - vm_compute. reflexivity.
  - vm_compute. reflexivity.
  - vm_compute. reflexivity.
Defined.

(** ** The scenarios of the specification *)

(** A GET request whose [dns] parameter is not base64url is answered 400,
    and so is one without the parameter. *)
Example scenario_bad_encoding :
  http.w_Status
    (writer (snd (queryHandler (L := wire.lib) (env_up a_record_answer)
                    (get_request "not-base64!!") (init main_server))))
  = Some http.StatusBadRequest
  /\ http.w_Status
       (writer (snd (queryHandler (L := wire.lib) (env_up a_record_answer)
                       (http.mkRequest "GET" ∅ ∅ ([], None)) (init main_server))))
     = Some http.StatusBadRequest.
Proof. split; vm_compute; reflexivity. Qed.

(** A POST request with the right content type and an empty body is
    answered 400: the body does not unpack. A request of another method is
    answered 400 as well. *)
Example scenario_empty_body :
  http.w_Status
    (writer (snd (queryHandler (L := wire.lib) (env_up a_record_answer)
                    (post_request "application/dns-message" [])
                    (init main_server))))
  = Some http.StatusBadRequest
  /\ http.w_Status
       (writer (snd (queryHandler (L := wire.lib) (env_up a_record_answer)
                       (http.mkRequest "PUT" ∅ ∅ ([], None)) (init main_server))))
     = Some http.StatusBadRequest.
Proof. split; vm_compute; reflexivity. Qed.

(** A query for [example.com], type A, against a resolver that returns one
    A record: status 200 and a body that unpacks to the answer, its
    question and its record. The same query arrives by GET and by POST,
    and both send the same message to the resolver. *)
Example scenario_example_com :
  http.w_Status
    (writer (snd (queryHandler (L := wire.lib) (env_up a_record_answer)
                    (get_request
                       (base64.EncodeToString
                          (fst (wire.Pack (example_query dns.TypeA)))))
                    (init main_server))))
  = Some http.StatusOK
  /\ wire.Unpack
       (http.w_Body
          (writer (snd (queryHandler (L := wire.lib) (env_up a_record_answer)
                          (get_request
                             (base64.EncodeToString
                                (fst (wire.Pack (example_query dns.TypeA)))))
                          (init main_server)))))
     = (a_record_answer, None)
  /\ sent (trace (snd (queryHandler (L := wire.lib) (env_up a_record_answer)
                         (get_request
                            (base64.EncodeToString
                               (fst (wire.Pack (example_query dns.TypeA)))))
                         (init main_server))))
     = sent (trace (snd (queryHandler (L := wire.lib) (env_up a_record_answer)
                           (post_request "application/dns-message"
                              (fst (wire.Pack (example_query dns.TypeA))))
                           (init main_server)))).
Proof. repeat split; vm_compute; reflexivity. Qed.

(** A resolver that is down gives status 500. *)
Example scenario_resolver_down :
  http.w_Status
    (writer (snd (queryHandler (L := wire.lib) env_down
                    (get_request
                       (base64.EncodeToString
                          (fst (wire.Pack (example_query dns.TypeA)))))
                    (init main_server))))
  = Some http.StatusInternalServerError.
Proof. vm_compute. reflexivity. Qed.

(** * More of the decoder *)

(** A request the decoder rejects without touching the state is answered
    400 after two log lines, and nothing else happens. *)
Lemma queryHandler_reject {L : dns.Lib} (E : Env) (r : http.Request) (st : State)
    (n t : string) (id : N) (e : string) :
  (forall st0, parseRequest r st0 = (n, t, id, Some e, st0)) ->
  queryHandler E r st
  = (tt, mkState (server st)
           (http.Error "Bad Request" http.StatusBadRequest (writer st))
           (clock st)
           (trace st ++ [EvLog "Handling /odoh request";
                         EvLog "Failed parsing request:"])).
Proof.
  intros Hp. unfold queryHandler. run_monad. rewrite Hp. run_monad.
  now rewrite <- app_assoc.
Qed.

(** X1. A request whose method is neither GET nor POST (the comparison
    is exact, so [get] is such a method) gets the error
    [unsupported HTTP method] from [parseRequest] in an unchanged state,
    and the handler answers 400 without reading the body or dialling. *)
Theorem unsupported_method {L : dns.Lib} (E : Env) (s : odohServer) (r : http.Request)
    (st : State) :
  http.Method r <> "GET" ->
  http.Method r <> "POST" ->
  parseRequest r st = ("", "", 0%N, Some "unsupported HTTP method", st)
  /\ queryHandler E r (init s)
     = (tt, mkState s
              (http.Error "Bad Request" http.StatusBadRequest http.fresh) 0
              [EvLog "Handling /odoh request"; EvLog "Failed parsing request:"]).
Proof.
  intros Hg Hp. apply String.eqb_neq in Hg, Hp.
  assert (H : forall st0, parseRequest r st0
                = ("", "", 0%N, Some "unsupported HTTP method", st0)).
  { intros st0. unfold parseRequest. now rewrite Hg, Hp. }
  split; [apply H|]. now rewrite (queryHandler_reject E r _ _ _ _ _ H).
Qed.

Lemma unsupported_method_witness :
  parseRequest (L := wire.lib)
    (http.mkRequest "get" {[ "dns" := ["AAAAAAAAAAAAAAAA"] ]} ∅ ([], None))
    (init main_server)
  = ("", "", 0%N, Some "unsupported HTTP method", init main_server).
Proof.
  refine (proj1 (unsupported_method (L := wire.lib) (env_up nxdomain_answer)
                   main_server _ (init main_server) _ _));
    vm_compute; discriminate.
Defined.

(** X2. A GET request without a [dns] parameter, or with an empty one,
    gets the error [Missing DNS query parameter in GET request]; nothing
    is decoded or unpacked, and the handler answers 400. *)
Theorem missing_dns_parameter {L : dns.Lib} (E : Env) (s : odohServer) (r : http.Request) :
  http.Method r = "GET" ->
  http.Get (http.URL_Query r) "dns" = "" ->
  parseRequestFromGET s r
  = ("", "", 0%N, Some "Missing DNS query parameter in GET request")
  /\ queryHandler E r (init s)
     = (tt, mkState s
              (http.Error "Bad Request" http.StatusBadRequest http.fresh) 0
              [EvLog "Handling /odoh request"; EvLog "Failed parsing request:"]).
Proof.
  intros Hm Hq.
  assert (Hg : forall s0, parseRequestFromGET s0 r
                 = ("", "", 0%N, Some "Missing DNS query parameter in GET request")).
  { intros s0. unfold parseRequestFromGET. now rewrite Hq. }
  split; [apply Hg|].
  rewrite (queryHandler_reject E r _ "" "" 0%N
             "Missing DNS query parameter in GET request"); [reflexivity|].
  intros st0. unfold parseRequest. rewrite Hm, String.eqb_refl.
  run_monad. now rewrite Hg.
Qed.

Lemma missing_dns_parameter_witness :
  parseRequestFromGET (L := wire.lib) main_server
    (http.mkRequest "GET" {[ "name" := ["example.com"] ]} ∅ ([], None))
  = ("", "", 0%N, Some "Missing DNS query parameter in GET request").
Proof.
  refine (proj1 (missing_dns_parameter (L := wire.lib) (env_up nxdomain_answer)
                   main_server _ _ _)); vm_compute; reflexivity.
Defined.

(** Four characters at a time. *)
Lemma list_ind4 {A} (P : list A -> Prop) :
  P [] -> (forall a, P [a]) -> (forall a b, P [a; b]) ->
  (forall a b c, P [a; b; c]) ->
  (forall a b c d l, P l -> P (a :: b :: c :: d :: l)) ->
  forall l, P l.
Proof.
  intros H0 H1 H2 H3 H4.
  fix IH 1.
  intros [|a [|b [|c [|d l]]]];
    [apply H0 | apply H1 | apply H2 | apply H3 | apply H4, IH].
Qed.

(** One character outside the alphabet makes the whole input corrupt. *)
Lemma decode_invalid (src : list ascii) (c : ascii) :
  In c src -> base64.decodeMap c = None ->
  snd (base64.decode src) = base64.CorruptInputError.
Proof.
  intros Hin Hc. revert Hin.
  induction src as [|a|a b|a b d|a b d e l IH] using list_ind4; intros Hin.
  - destruct Hin.
  - reflexivity.
  - cbn [base64.decode].
    destruct Hin as [<-|[<-|[]]]; rewrite ?Hc;
      repeat case_match; reflexivity.
  - cbn [base64.decode].
    destruct Hin as [<-|[<-|[<-|[]]]]; rewrite ?Hc;
      repeat case_match; reflexivity.
  - cbn [base64.decode].
    destruct (base64.decodeMap a) eqn:Ha; [|reflexivity].
    destruct (base64.decodeMap b) eqn:Hb; [|reflexivity].
    destruct (base64.decodeMap d) eqn:Hd; [|reflexivity].
    destruct (base64.decodeMap e) eqn:He; [|reflexivity].
    assert (Hl : In c l).
    { destruct Hin as [<-|[<-|[<-|[<-|H]]]]; congruence. }
    specialize (IH Hl). destruct (base64.decode l) as [bs err].
    cbn [snd] in *. exact IH.
Qed.

(** X3. A [dns] parameter that holds a character outside the base64url
    alphabet (a padding [=], the [+] and [/] of standard base64, a space),
    other than a carriage return or a line feed, is rejected with the
    error of the base64 decoder, before anything is unpacked, and the
    handler answers 400. *)
Theorem invalid_base64_rejected {L : dns.Lib} (E : Env) (s : odohServer) (r : http.Request)
    (c : ascii) :
  http.Method r = "GET" ->
  In c (list_ascii_of_string (http.Get (http.URL_Query r) "dns")) ->
  base64.decodeMap c = None ->
  base64.is_newline c = false ->
  parseRequestFromGET s r = ("", "", 0%N, base64.CorruptInputError)
  /\ queryHandler E r (init s)
     = (tt, mkState s
              (http.Error "Bad Request" http.StatusBadRequest http.fresh) 0
              [EvLog "Handling /odoh request"; EvLog "Failed parsing request:"]).
Proof.
  intros Hm Hin Hc Hnl.
  assert (Hg : forall s0, parseRequestFromGET s0 r
                 = ("", "", 0%N, base64.CorruptInputError)).
  { intros s0. unfold parseRequestFromGET.
    destruct (String.eqb_spec (http.Get (http.URL_Query r) "dns") "") as [He|_].
    { rewrite He in Hin. destruct Hin. }
    assert (Hd : snd (base64.DecodeString (http.Get (http.URL_Query r) "dns"))
                 = base64.CorruptInputError).
    { unfold base64.DecodeString. apply (decode_invalid _ c); [|exact Hc].
      apply filter_In. split; [exact Hin|]. now rewrite Hnl. }
    destruct (base64.DecodeString _) as [bs err]. cbn [snd] in Hd.
    now subst err. }
  split; [apply Hg|].
  rewrite (queryHandler_reject E r _ "" "" 0%N "illegal base64 data");
    [reflexivity|].
  intros st0. unfold parseRequest. rewrite Hm, String.eqb_refl.
  run_monad. now rewrite Hg.
Qed.

Lemma invalid_base64_rejected_witness :
  parseRequestFromGET (L := wire.lib) main_server
    (get_request "AAAAAAAAAAAAAAAA==")
  = ("", "", 0%N, base64.CorruptInputError).
Proof.
  refine (proj1 (invalid_base64_rejected (L := wire.lib)
                   (env_up nxdomain_answer) main_server
                   (get_request "AAAAAAAAAAAAAAAA==") "="%char _ _ _ _)).
  - reflexivity.
  - vm_compute. tauto.
  - reflexivity.
  - reflexivity.
Defined.

(** X4. Whatever [parseRequest] returns with a [nil] error comes from
    bytes that unpacked: the decoded [dns] parameter of a GET request or
    the body of a POST request with the right content type. It is the
    name, type name and identifier of the only question of that message,
    or, when the message has not exactly one question, two empty strings
    and the identifier 0. *)
Theorem decoder_accepts {L : dns.Lib} (r : http.Request) (st : State)
    (n t : string) (id : N) :
  fst (parseRequest r st) = (n, t, id, None) ->
  exists bs msg,
    ((http.Method r = "GET"
      /\ http.Get (http.URL_Query r) "dns" <> ""
      /\ base64.DecodeString (http.Get (http.URL_Query r) "dns") = (bs, None))
     \/ (http.Method r = "POST"
         /\ http.Get (http.Header r) "Content-Type" = "application/dns-message"
         /\ http.Body r = (bs, None)))
    /\ dns.Unpack bs = (msg, None)
    /\ ((exists q, dns.Questions msg = [q]
                   /\ n = dns.Name q
                   /\ t = dns.TypeString (dns.Qtype q)
                   /\ id = dns.Id (dns.Hdr msg))
        \/ (length (dns.Questions msg) <> 1 /\ n = "" /\ t = "" /\ id = 0%N)).
Proof.
  unfold parseRequest.
  destruct (String.eqb_spec (http.Method r) "GET") as [Hg|Hg].
  - run_monad. unfold parseRequestFromGET.
    destruct (String.eqb_spec (http.Get (http.URL_Query r) "dns") "") as [He|He];
      [discriminate|].
    destruct (base64.DecodeString _) as [bs [e|]] eqn:Hd; cbn [negb is_nil];
      [discriminate|].
    destruct (dns.Unpack bs) as [msg [e|]] eqn:Hu; cbn [negb is_nil];
      [discriminate|].
    destruct (Nat.eqb_spec (length (dns.Questions msg)) 1) as [Hl|Hl];
      cbn [negb]; intros Heq; injection Heq as <- <- <-;
      exists bs, msg; (split; [left; auto|]); (split; [assumption|]).
    + left. unfold Question0.
      destruct (dns.Questions msg) as [|q [|q' qs]]; try discriminate Hl.
      exists q. auto.
    + right. auto.
  - destruct (String.eqb_spec (http.Method r) "POST") as [Hp|Hp];
      [|discriminate].
    unfold parseRequestFromPOST.
    destruct (String.eqb_spec (http.Get (http.Header r) "Content-Type")
                "application/dns-message") as [Hc|Hc]; cbn [negb];
      [|discriminate].
    run_monad.
    destruct (http.Body r) as [bs [e|]] eqn:Hb; run_monad; [discriminate|].
    destruct (dns.Unpack bs) as [msg [e|]] eqn:Hu; run_monad; [discriminate|].
    destruct (Nat.eqb_spec (length (dns.Questions msg)) 1) as [Hl|Hl];
      cbn [negb].
    + run_monad. destruct (verbose (server st)); run_monad;
        intros Heq; injection Heq as <- <- <-;
        exists bs, msg; (split; [right; auto|]); (split; [assumption|]);
        left; unfold Question0;
        (destruct (dns.Questions msg) as [|q [|q' qs]]; try discriminate Hl);
        exists q; auto.
    + run_monad. intros Heq; injection Heq as <- <- <-.
      exists bs, msg. split; [right; auto|]. split; [assumption|].
      right. auto.
Qed.

Lemma decoder_accepts_witness :
  exists bs msg,
    ((http.Method (post_request "application/dns-message"
                     (fst (wire.Pack mx_query))) = "GET"
      /\ http.Get (http.URL_Query (post_request "application/dns-message"
                                     (fst (wire.Pack mx_query)))) "dns" <> ""
      /\ base64.DecodeString
           (http.Get (http.URL_Query (post_request "application/dns-message"
                                        (fst (wire.Pack mx_query)))) "dns")
         = (bs, None))
     \/ (http.Method (post_request "application/dns-message"
                        (fst (wire.Pack mx_query))) = "POST"
         /\ http.Get (http.Header (post_request "application/dns-message"
                                     (fst (wire.Pack mx_query))))
              "Content-Type" = "application/dns-message"
         /\ http.Body (post_request "application/dns-message"
                         (fst (wire.Pack mx_query))) = (bs, None)))
    /\ wire.Unpack bs = (msg, None)
    /\ ((exists q, dns.Questions msg = [q]
                   /\ "example.org." = dns.Name q
                   /\ "MX" = wire.TypeString (dns.Qtype q)
                   /\ 7%N = dns.Id (dns.Hdr msg))
        \/ (length (dns.Questions msg) <> 1
            /\ "example.org." = "" /\ "MX" = "" /\ 7%N = 0%N)).
Proof.
  refine (decoder_accepts (L := wire.lib)
            (post_request "application/dns-message" (fst (wire.Pack mx_query)))
            (init main_server) "example.org." "MX" 7%N _).
  vm_compute. reflexivity.
Defined.



Lemma effects_app (tr1 tr2 : list Event) :
  effects (tr1 ++ tr2) = effects tr1 ++ effects tr2.
Proof. apply List.filter_app. Qed.

(** The decoder adds its body events to the trace, and log lines. *)
Lemma parseRequest_effects {L : dns.Lib} (r : http.Request) (st : State) :
  effects (trace (snd (parseRequest r st))) = effects (trace st) ++ body_events r.
Proof.
  unfold parseRequest, parseRequestFromPOST, body_events. run_monad.
  repeat (case_match; run_monad); simplify_eq; cbn [snd trace negb] in *;
    try discriminate; rewrite ?effects_app; cbn; rewrite ?app_nil_r;
    rewrite <- ?app_assoc; reflexivity.
Qed.

(** X6. The decoder is local: it leaves the server value, the response
    writer and the clock as they are, and all it does to the outside,
    besides logging, is to read the body of a POST request with the right
    content type once and to close it afterwards, on every outcome. It
    never touches the body of another request and never the network. *)
Theorem decoder_is_local {L : dns.Lib} (r : http.Request) (st : State) :
  server (snd (parseRequest r st)) = server st
  /\ writer (snd (parseRequest r st)) = writer st
  /\ clock (snd (parseRequest r st)) = clock st
  /\ effects (trace (snd (parseRequest r st)))
     = effects (trace st)
       ++ (if String.eqb (http.Method r) "POST"
              && String.eqb (http.Get (http.Header r) "Content-Type")
                   "application/dns-message"
           then [EvBodyRead; EvBodyClose] else []).
Proof.
  destruct (parseRequest_frame r st) as (Hs & Hw & Hc).
  repeat split; auto.
  rewrite parseRequest_effects. unfold body_events. f_equal.
  destruct (String.eqb_spec (http.Method r) "GET") as [Hg|Hg].
  - rewrite Hg. reflexivity.
  - destruct (String.eqb (http.Method r) "POST"); reflexivity.
Qed.

(** * More of the resolver transport *)

(** X7. When the dial fails, [resolve] returns the fixed error
    [Failed starting resolver connection] (the error of the dial itself is
    dropped) and stops there: no deadline is set, nothing is written or
    read, the clock is not read, and the field [connection] is left
    pointing to a [dns.Conn] without a connection. *)
Theorem resolve_dial_failure (E : Env) (msg : dns.Msg) (st : State) (e : string) :
  net_DialTimeout E "tcp" (nameserver (server st)) (used_timeout (server st))
    = inr e ->
  resolve E msg st
  = (None, Some "Failed starting resolver connection",
     mkState
       (mkServer (verbose (server st)) (nameserver (server st))
          (timeout (server st)) (Some (mkConn None)))
       (writer st) (clock st)
       (trace st
        ++ [EvDial "tcp" (nameserver (server st)) (used_timeout (server st)) None])).
Proof. intros Hd. rewrite resolve_run. cbn zeta. now rewrite Hd. Qed.

Lemma resolve_dial_failure_witness :
  resolve env_down (example_query dns.TypeA) (init main_server)
  = (None, Some "Failed starting resolver connection",
     mkState (mkServer true "1.1.1.1:53" 2500000000%Z (Some (mkConn None)))
       http.fresh 0 [EvDial "tcp" "1.1.1.1:53" 2500000000000000%Z None]).
Proof.
  refine (resolve_dial_failure env_down (example_query dns.TypeA)
            (init main_server) "connection refused" _).
  reflexivity.
Defined.

(** X8. When the write fails, [resolve] returns the error of the write
    as it is and does not read: the trace ends with the write, after the
    dial and the two deadlines, read deadline first. *)
Theorem resolve_write_failure (E : Env) (msg : dns.Msg) (st : State)
    (c : NetConn) (e : string) :
  net_DialTimeout E "tcp" (nameserver (server st)) (used_timeout (server st))
    = inl c ->
  conn_WriteMsg E c msg = Some e ->
  fst (resolve E msg st) = (None, Some e)
  /\ trace (snd (resolve E msg st))
     = trace st
       ++ [ EvDial "tcp" (nameserver (server st)) (used_timeout (server st))
              (Some c);
            EvSetReadDeadline c
              (time.Add (time_Now E (clock st)) (used_timeout (server st)));
            EvSetWriteDeadline c
              (time.Add (time_Now E (S (clock st))) (used_timeout (server st)));
            EvWriteMsg c msg ].
Proof.
  intros Hd Hw. rewrite resolve_run. cbn zeta. rewrite Hd, Hw. split; reflexivity.
Qed.

Lemma resolve_write_failure_witness :
  fst (resolve env_write_fails (example_query dns.TypeA) (init main_server))
  = (None, Some "write: broken pipe").
Proof.
  refine (proj1 (resolve_write_failure env_write_fails (example_query dns.TypeA)
                   (init main_server) 1 "write: broken pipe" _ _));
    reflexivity.
Defined.

(** X9. [resolve] returns an answer with a [nil] error exactly when the
    dial, the write and the read all succeed, and the answer is then the
    message the read returned, unchanged; in every other case it returns
    no message and an error. *)
Theorem resolve_succeeds_iff (E : Env) (msg : dns.Msg) (st : State) :
  (forall m : dns.Msg,
     fst (resolve E msg st) = (Some m, None)
     <-> exists c,
           net_DialTimeout E "tcp" (nameserver (server st))
             (used_timeout (server st)) = inl c
           /\ conn_WriteMsg E c msg = None
           /\ conn_ReadMsg E c = inl m)
  /\ ((exists m, fst (resolve E msg st) = (Some m, None))
      \/ (exists e, fst (resolve E msg st) = (None, Some e))).
Proof.
  rewrite resolve_run. cbn zeta.
  destruct (net_DialTimeout E _ _ _) as [c|e] eqn:Hd.
  - destruct (conn_WriteMsg E c msg) as [e|] eqn:Hw; cbn [fst].
    + split; [|right; eauto].
      intros m. split; [discriminate|].
      intros (c' & Hc & Hw' & _). injection Hc as <-. congruence.
    + destruct (conn_ReadMsg E c) as [m0|e] eqn:Hr.
      * split; [|left; eauto].
        intros m. split.
        -- intros H. injection H as <-. eauto.
        -- intros (c' & Hc & _ & Hr'). injection Hc as <-. congruence.
      * split; [|right; eauto].
        intros m. split; [discriminate|].
        intros (c' & Hc & _ & Hr'). injection Hc as <-. congruence.
  - cbn [fst]. split; [|right; eauto].
    intros m. split; [discriminate|]. intros (c' & Hc & _). discriminate.
Qed.

Lemma resolve_durations_witness :
  exists rest,
    trace (snd (resolve (env_up nxdomain_answer) (example_query dns.TypeA)
                  (init main_server)))
    = trace (init main_server)
      ++ [ EvDial "tcp" (nameserver (server (init main_server)))
             (used_timeout (server (init main_server))) (Some 1);
           EvSetReadDeadline 1
             (time.Add (time_Now (env_up nxdomain_answer)
                          (clock (init main_server)))
                (used_timeout (server (init main_server))));
           EvSetWriteDeadline 1
             (time.Add (time_Now (env_up nxdomain_answer)
                          (S (clock (init main_server))))
                (used_timeout (server (init main_server))));
           EvWriteMsg 1 (example_query dns.TypeA) ]
      ++ rest.
Proof.
  refine (resolve_durations (env_up nxdomain_answer) (example_query dns.TypeA)
            (init main_server) 1 _).
  reflexivity.
Defined.

Lemma used_timeout_scaled_witness :
  used_timeout (mkServer false "9.9.9.9:53" 3000%Z None) = (1000000 * 3000)%Z.
Proof.
  refine (used_timeout_scaled (mkServer false "9.9.9.9:53" 3000%Z None) _).
  cbn. lia.
Defined.

(** * More of the handler *)

Section HandlerEffects.
Context {L : dns.Lib} (E : Env).

Ltac run_transport Hs :=
  run_monad;
  rewrite resolve_run; cbn zeta; cbn [server writer clock trace];
  unfold used_timeout, dialled; rewrite ?Hs.

(** What a request does to the outside besides logging: the body events
    of the decoder, then, when the decoder returned no error, one round
    trip for the synthesized query. *)
Lemma queryHandler_effects_run (r : http.Request) (st : State) :
  effects (trace (snd (queryHandler E r st)))
  = effects (trace st) ++ body_events r
    ++ (let '(n, t, _, err) := fst (parseRequest r st) in
        if is_nil err
        then transport_events E (server st) (S (clock st)) (createQuery E n t)
        else []).
Proof.
  unfold queryHandler. run_monad.
  set (st0 := mkState _ _ _ _).
  rewrite (parseRequest_result r st st0).
  destruct (parseRequest_frame r st0) as (Hs & _ & Hc).
  pose proof (parseRequest_effects r st0) as Ht.
  destruct (parseRequest r st0) as [[[[n t] id] err] st1].
  cbn [fst snd] in *. subst st0. cbn [server trace clock] in *.
  rewrite effects_app in Ht. cbn in Ht. rewrite app_nil_r in Ht.
  assert (Hfin : forall l1 l2,
            effects l1 = l2 ->
            effects (trace st1 ++ l1) = effects (trace st) ++ body_events r ++ l2).
  { intros l1 l2 <-. now rewrite effects_app, Ht, <- app_assoc. }
  unfold transport_events.
  destruct err as [e|]; run_monad.
  { rewrite <- ?app_assoc. now apply Hfin. }
  destruct (verbose (server st1)); run_transport Hs; rewrite ?Hc.
  all: destruct (net_DialTimeout E _ _ _) as [c|?]; run_monad;
    [|rewrite <- ?app_assoc; now apply Hfin].
  all: unfold round_trip_events; cbn [server clock]; rewrite ?Hc.
  all: destruct (conn_WriteMsg E c _) as [?|]; run_monad;
    [rewrite <- ?app_assoc; now apply Hfin|].
  all: destruct (conn_ReadMsg E c) as [m|?]; run_monad;
    [|rewrite <- ?app_assoc; now apply Hfin].
  all: destruct (dns.Pack m) as [packed [?|]]; run_monad;
    [rewrite <- ?app_assoc; now apply Hfin|].
  all: destruct (verbose (server st)); run_monad;
    rewrite <- ?app_assoc; now apply Hfin.
Qed.

End HandlerEffects.

(** X10. The response has one of three shapes. An answer: status 200,
    the only header Content-Type [application/dns-message]. A rejection:
    status 400, Content-Type [text/plain; charset=utf-8], the header
    X-Content-Type-Options [nosniff], and the body [Bad Request] with a
    line feed. A failure: the same with status 500 and the body
    [Internal Server Error]. An error response never carries bytes of a
    DNS message. *)
Theorem response_shapes {L : dns.Lib} (E : Env) (r : http.Request)
    (s : odohServer) :
  (exists packed,
     writer (snd (queryHandler E r (init s)))
     = http.mkResponseWriter {[ "Content-Type" := ["application/dns-message"] ]}
         (Some http.StatusOK) packed)
  \/ writer (snd (queryHandler E r (init s)))
     = http.mkResponseWriter
         (<[ "X-Content-Type-Options" := ["nosniff"] ]>
            {[ "Content-Type" := ["text/plain; charset=utf-8"] ]})
         (Some http.StatusBadRequest)
         (list_byte_of_string (String.append "Bad Request" (String "010" "")))
  \/ writer (snd (queryHandler E r (init s)))
     = http.mkResponseWriter
         (<[ "X-Content-Type-Options" := ["nosniff"] ]>
            {[ "Content-Type" := ["text/plain; charset=utf-8"] ]})
         (Some http.StatusInternalServerError)
         (list_byte_of_string
            (String.append "Internal Server Error" (String "010" ""))).
Proof.
  rewrite queryHandler_writer. unfold respond. cbn [init server writer].
  destruct (fst (parseRequest r (init s))) as [[[n t] id] [e|]];
    cbn [negb is_nil]; [right; left; reflexivity|].
  destruct (upstream_answer E s (createQuery E n t)) as [m|e];
    [|right; right; reflexivity].
  destruct (dns.Pack m) as [packed [e|]]; cbn [negb is_nil];
    [right; right; reflexivity|].
  left. exists packed. reflexivity.
Qed.

(** X11. One request writes at most one message to the resolver, and
    never tries again: the query [createQuery] builds from the decoded
    name and type when the decoder returned no error and the dial
    succeeded, and nothing otherwise. *)
Theorem single_upstream_query {L : dns.Lib} (E : Env) (r : http.Request)
    (s : odohServer) :
  sent (trace (snd (queryHandler E r (init s))))
  = (let '(n, t, _, err) := fst (parseRequest r (init s)) in
     if is_nil err && negb (is_nil (dial_result E s))
     then [createQuery E n t] else [])
  /\ length (sent (trace (snd (queryHandler E r (init s))))) <= 1.
Proof.
  rewrite queryHandler_sent. cbn [init trace server sent app].
  split; [reflexivity|].
  destruct (fst (parseRequest r (init s))) as [[[n t] id] err].
  destruct (is_nil err && negb (is_nil (dial_result E s))); cbn; lia.
Qed.

(** X12. What a request does to the outside, log lines apart, in order:
    the decoder reads and closes the body of a POST request with the
    right content type; then, when the decoder returned no error, comes
    one round trip (dial, read deadline, write deadline, write, and the
    read when the write succeeded) for the synthesized query, its first
    deadline taken at the second clock reading. *)
Theorem handler_effects {L : dns.Lib} (E : Env) (r : http.Request)
    (s : odohServer) :
  effects (trace (snd (queryHandler E r (init s))))
  = body_events r
    ++ (let '(n, t, _, err) := fst (parseRequest r (init s)) in
        if is_nil err then transport_events E s 1 (createQuery E n t) else []).
Proof. rewrite queryHandler_effects_run. reflexivity. Qed.




(** X14. The flag [verbose] changes the log and nothing else: with the
    flag set or clear, the same request gets the same response, the same
    is done to the body and to the network, and the same connection is
    left in the server. *)
Theorem verbose_only_logs {L : dns.Lib} (E : Env) (r : http.Request)
    (b b' : bool) (ns : string) (d : time.Duration) (p : option dnsConn) :
  writer (snd (queryHandler E r (init (mkServer b ns d p))))
  = writer (snd (queryHandler E r (init (mkServer b' ns d p))))
  /\ effects (trace (snd (queryHandler E r (init (mkServer b ns d p)))))
     = effects (trace (snd (queryHandler E r (init (mkServer b' ns d p)))))
  /\ connection (server (snd (queryHandler E r (init (mkServer b ns d p)))))
     = connection (server (snd (queryHandler E r (init (mkServer b' ns d p))))).
Proof.
  rewrite !queryHandler_writer, !queryHandler_effects_run, !queryHandler_server.
  rewrite (parseRequest_result r (init (mkServer b ns d p))
             (init (mkServer b' ns d p))).
  unfold respond, upstream_answer, transport_events, dial_result, used_timeout.
  destruct (fst (parseRequest r (init (mkServer b' ns d p))))
    as [[[n t] id] [e|]];
    cbn [init server writer clock trace verbose nameserver timeout connection
         negb is_nil effects List.filter app];
    repeat split; reflexivity.
Qed.

Lemma opened_effects (tr : list Event) : opened (effects tr) = opened tr.
Proof.
  unfold effects. induction tr as [|e tr IH]; [reflexivity|].
  destruct e as [| | | ? ? ? [c|] | | | | | |]; cbn; now rewrite ?IH.
Qed.

Lemma closed_effects (tr : list Event) : closed (effects tr) = closed tr.
Proof.
  unfold effects. induction tr as [|e tr IH]; [reflexivity|].
  destruct e; cbn; now rewrite ?IH.
Qed.

(** X15. A request never closes a connection. It opens none when the
    decoder rejects it or the dial fails, and exactly one otherwise: every
    request that reaches the resolver leaves one more connection open. *)
Theorem handler_connections {L : dns.Lib} (E : Env) (r : http.Request)
    (s : odohServer) :
  closed (trace (snd (queryHandler E r (init s)))) = []
  /\ opened (trace (snd (queryHandler E r (init s))))
     = (if is_nil (snd (fst (parseRequest r (init s))))
        then match dial_result E s with Some c => [c] | None => [] end
        else []).
Proof.
  rewrite <- closed_effects, <- opened_effects, queryHandler_effects_run.
  cbn [init trace effects List.filter app server clock].
  rewrite closed_app, opened_app.
  assert (Hb : closed (body_events r) = [] /\ opened (body_events r) = []).
  { unfold body_events. repeat case_match; auto. }
  destruct Hb as [-> ->]. cbn [app].
  destruct (fst (parseRequest r (init s))) as [[[n t] id] [e|]];
    cbn [snd is_nil]; [auto|].
  unfold transport_events, dial_result.
  destruct (net_DialTimeout E _ _ _) as [c|?]; [|auto].
  destruct (is_nil (conn_WriteMsg E c _)); auto.
Qed.

(** X16. End to end, only the name and the type name of the inbound
    question reach the resolver. For a GET request whose bytes unpack to
    a message with one question, and a dial that succeeds, the one
    message written upstream asks for the fully-qualified name, in class
    Internet, for an A record when the type name is [A] and for an AAAA
    record for every other type, with the identifier [dns.Id()] drew and
    recursion desired: the identifier, the flags and the class of the
    inbound message are dropped, and so is every type but A. *)
Theorem upstream_query {L : dns.Lib} (E : Env) (s : odohServer)
    (r : http.Request) (bs : list byte) (m : dns.Msg) (q : dns.Question)
    (c : NetConn) :
  http.Method r = "GET" ->
  http.Get (http.URL_Query r) "dns" = base64.EncodeToString bs ->
  bs <> [] ->
  dns.Unpack bs = (m, None) ->
  dns.Questions m = [q] ->
  net_DialTimeout E "tcp" (nameserver s) (used_timeout s) = inl c ->
  sent (trace (snd (queryHandler E r (init s))))
  = [ dns.mkMsg
        (dns.mkMsgHdr (dns_Id E) false dns.OpcodeQuery false false true false
           false false false dns.RcodeSuccess)
        false
        [dns.mkQuestion (dns.Fqdn (dns.Name q))
           (if String.eqb (dns.TypeString (dns.Qtype q)) "A"
            then dns.TypeA else dns.TypeAAAA)
           dns.ClassINET]
        [] [] [] ].
Proof.
  intros Hm Hq Hne Hu Hone Hd.
  rewrite queryHandler_sent. cbn [init trace server sent app].
  assert (Hp : fst (parseRequest r (init s))
               = (dns.Name q, dns.TypeString (dns.Qtype q), dns.Id (dns.Hdr m),
                  None)).
  { unfold parseRequest. rewrite Hm, String.eqb_refl. run_monad.
    unfold parseRequestFromGET. rewrite Hq.
    destruct (String.eqb_spec (base64.EncodeToString bs) "") as [He|_].
    { apply EncodeToString_empty in He. contradiction. }
    rewrite DecodeString_EncodeToString. cbn [negb is_nil].
    rewrite Hu. cbn [negb is_nil]. unfold Question0. now rewrite Hone. }
  rewrite Hp. unfold dial_result. rewrite Hd. cbn [is_nil negb andb].
  now rewrite createQuery_eq.
Qed.

Lemma upstream_query_witness :
  sent (trace (snd (queryHandler (L := wire.lib) (env_up nxdomain_answer)
                      (get_request
                         (base64.EncodeToString (fst (wire.Pack mx_query))))
                      (init main_server))))
  = [ dns.mkMsg
        (dns.mkMsgHdr 4919 false 0 false false true false false false false 0)
        false [dns.mkQuestion "example.org." dns.TypeAAAA dns.ClassINET]
        [] [] [] ].
Proof.
  refine (upstream_query (L := wire.lib) (env_up nxdomain_answer) main_server
            (get_request (base64.EncodeToString (fst (wire.Pack mx_query))))
            (fst (wire.Pack mx_query)) mx_query
            (dns.mkQuestion "example.org." 15 3) 1 _ _ _ _ _ _).
  - reflexivity.
  - vm_compute. reflexivity.
  - vm_compute. discriminate.
  - vm_compute. reflexivity.
  - reflexivity.
  - reflexivity.
Defined.

(** * The other handlers *)

(** X17. The root handler answers the exact path [/] with status 200 and
    its one line of text; every other path, the empty one and [/index.html]
    among them, gets 404 with the text [404 page not found]. In both cases
    it logs one line and touches neither the server value nor the network. *)
Theorem handle_root_only (r : PathRequest) (s : odohServer) :
  handle r (init s)
  = (tt, mkState s
           (if String.eqb (URL_Path r) "/"
            then http.mkResponseWriter ∅ (Some http.StatusOK)
                   (list_byte_of_string "ODOH, try /dns-query instead!")
            else http.mkResponseWriter
                   (<[ "X-Content-Type-Options" := ["nosniff"] ]>
                      {[ "Content-Type" := ["text/plain; charset=utf-8"] ]})
                   (Some StatusNotFound)
                   (list_byte_of_string
                      (String.append "404 page not found" (String "010" ""))))
           0 [EvLog "Received / request"])
  /\ (http.w_Status (writer (snd (handle r (init s)))) = Some http.StatusOK
      <-> URL_Path r = "/").
Proof.
  assert (Hrun : handle r (init s)
    = (tt, mkState s
           (if String.eqb (URL_Path r) "/"
            then http.mkResponseWriter ∅ (Some http.StatusOK)
                   (list_byte_of_string "ODOH, try /dns-query instead!")
            else http.mkResponseWriter
                   (<[ "X-Content-Type-Options" := ["nosniff"] ]>
                      {[ "Content-Type" := ["text/plain; charset=utf-8"] ]})
                   (Some StatusNotFound)
                   (list_byte_of_string
                      (String.append "404 page not found" (String "010" ""))))
           0 [EvLog "Received / request"])).
  { unfold handle, Fprint. run_monad.
    destruct (String.eqb (URL_Path r) "/"); reflexivity. }
  split; [exact Hrun|]. rewrite Hrun. cbn [snd writer].
  destruct (String.eqb_spec (URL_Path r) "/") as [He|He]; cbn [http.w_Status].
  - split; auto.
  - split; [discriminate|contradiction].
Qed.

(** X18. The health check answers every request alike, whatever its
    method, headers and body and whatever the state of the server and of
    the resolver: on a writer whose header is not written yet it sets
    status 200 and appends [ok] to the body, it leaves the headers and the
    server value as they are, and besides its log line does nothing to
    the outside. *)
Theorem healthCheckHandler_ok (r : http.Request) (st : State) :
  http.w_Status (writer st) = None ->
  http.w_Status (writer (snd (healthCheckHandler r st))) = Some http.StatusOK
  /\ http.w_Body (writer (snd (healthCheckHandler r st)))
     = http.w_Body (writer st) ++ list_byte_of_string "ok"
  /\ http.w_Header (writer (snd (healthCheckHandler r st)))
     = http.w_Header (writer st)
  /\ server (snd (healthCheckHandler r st)) = server st
  /\ effects (trace (snd (healthCheckHandler r st))) = effects (trace st).
Proof.
  intros Hw. unfold healthCheckHandler, Fprint. run_monad.
  unfold http.Write, http.WriteHeader. rewrite Hw.
  cbn [http.w_Status http.w_Body http.w_Header].
  repeat split. rewrite effects_app. cbn. now rewrite app_nil_r.
Qed.

Lemma healthCheckHandler_ok_witness :
  http.w_Status
    (writer (snd (healthCheckHandler
                    (post_request "text/plain" (list_byte_of_string "ping"))
                    (init (mkServer false "10.0.0.1:53" 0%Z
                             (Some (mkConn None)))))))
  = Some http.StatusOK.
Proof.
  refine (proj1 (healthCheckHandler_ok
                   (post_request "text/plain" (list_byte_of_string "ping"))
                   (init (mkServer false "10.0.0.1:53" 0%Z (Some (mkConn None))))
                   _)).
  reflexivity.
Defined.
